(** * Objective tracker: cooldown, streak and reminder sweep of [src/app.js]

    A shallow embedding of the submit command handler (app.js, lines
    110-248), of the SQLite helper functions (lines 40-68) and of the
    24h reminder job (lines 71-97).

    Numbers.  [Date.now()], the INTEGER columns and the arithmetic on them
    are JavaScript numbers holding integers far below 2^53, so they are
    modelled as [Z] and [+], [-], [<] are exact.  [Math.floor (a / b)] with
    a positive [b] is [Z.div], which rounds towards minus infinity.

    Dates.  A JavaScript [Date] is its time value, the milliseconds since
    1970-01-01T00:00:00Z.  The TEXT column [lastStreakDay] holds the first
    ten characters of [toISOString()], the UTC calendar date [YYYY-MM-DD]
    of an instant; the date is represented by its day number (days since
    1970-01-01), so that [new Date(text)] is UTC midnight of that day and
    the text written for an instant [t] is [Day t].  [getMonth()] and
    [getFullYear()] read the host's local time; the offset of local time
    from UTC is a parameter of the handler.

    Store.  The table has the primary key [(userId, name)]: it is a finite
    map from keys to the other five columns, and the handler and the
    reminder job pass it along explicitly. *)

From Stdlib Require Import ZArith String List Bool Lia.
From stdpp Require Import base option gmap strings list fin_maps.

Local Open Scope string_scope.
Local Open Scope Z_scope.

(** ** The ECMAScript date functions used by the handler *)

Module Ecma.

Definition msPerDay : Z := 86400000.

(** [Day(t) = floor(t / msPerDay)] *)
Definition Day (t : Z) : Z := t / msPerDay.

Definition DaysInYear (y : Z) : Z :=
  if negb (y mod 4 =? 0) then 365
  else if negb (y mod 100 =? 0) then 366
  else if negb (y mod 400 =? 0) then 365
  else 366.

(** Day number of the first day of year [y]. *)
Definition DayFromYear (y : Z) : Z :=
  365 * (y - 1970) + (y - 1969) / 4 - (y - 1901) / 100 + (y - 1601) / 400.

(** The largest [y] with [DayFromYear y <= d]: an estimate from the mean
    length of a Gregorian year, corrected by at most one year. *)
Definition YearFromDay (d : Z) : Z :=
  let y := 1970 + (400 * d) / 146097 in
  if d <? DayFromYear y then y - 1
  else if DayFromYear (y + 1) <=? d then y + 1
  else y.

Definition InLeapYear (d : Z) : Z :=
  if DaysInYear (YearFromDay d) =? 366 then 1 else 0.

Definition DayWithinYear (d : Z) : Z := d - DayFromYear (YearFromDay d).

(** Month number, 0 (January) to 11 (December), of day number [d]. *)
Definition MonthFromDay (d : Z) : Z :=
  let n := DayWithinYear d in
  let leap := InLeapYear d in
  if n <? 31 then 0
  else if n <? 59 + leap then 1
  else if n <? 90 + leap then 2
  else if n <? 120 + leap then 3
  else if n <? 151 + leap then 4
  else if n <? 181 + leap then 5
  else if n <? 212 + leap then 6
  else if n <? 243 + leap then 7
  else if n <? 273 + leap then 8
  else if n <? 304 + leap then 9
  else if n <? 334 + leap then 10
  else 11.

Definition YearFromTime (t : Z) : Z := YearFromDay (Day t).
Definition MonthFromTime (t : Z) : Z := MonthFromDay (Day t).

End Ecma.

(** ** The objectives table (app.js, lines 26-37) *)

(** The primary key [(userId, name)] of a row. *)
Definition Key : Type := string * string.

(** The five remaining columns.  [lastStreakDay] is the day number of the
    stored [YYYY-MM-DD] text; [None] is SQL NULL. *)
Record Fields : Type := mkFields {
  frequency : string;
  lastSubmitted : option Z;
  streak : Z;
  lastStreakDay : option Z;
  lastReminded : option Z
}.

(** A row as [SELECT *] returns it: the key columns and the others. *)
Definition Row : Type := Key * Fields.

(** The table: at most one row per primary key. *)
Abbreviation Table := (gmap Key Fields).

Definition withLastReminded (v : option Z) (f : Fields) : Fields :=
  mkFields (frequency f) (lastSubmitted f) (streak f) (lastStreakDay f) v.

(** *** Helper functions (lines 40-68) *)

Definition getObjectives (userId : string) (db : Table) : list Row :=
  map_to_list (filter (fun kf : Key * Fields => kf.1.1 = userId) db).

Definition getObjective (userId name : string) (db : Table) : option Row :=
  match db !! (userId, name) with
  | Some f => Some ((userId, name), f)
  | None => None
  end.

(** [INSERT ... ON CONFLICT(userId, name) DO UPDATE SET ...]: every column
    that is not part of the key is replaced. *)
Definition upsertObjective (obj : Row) (db : Table) : Table :=
  <[obj.1 := obj.2]> db.

(** A plain [INSERT]: SQLite refuses it ([None]) when the key exists. *)
Definition createObjective (userId name freq : string) (db : Table)
  : option Table :=
  match db !! (userId, name) with
  | Some _ => None
  | None => Some (<[(userId, name) := mkFields freq None 0 None None]> db)
  end.

Definition deleteObjective (userId name : string) (db : Table) : Table :=
  delete (userId, name) db.

(** ** JavaScript truthiness of the values the handler tests *)

(** [if (obj.lastSubmitted)]: NULL and 0 are falsy. *)
Definition truthyNum (o : option Z) : bool :=
  match o with
  | Some v => negb (v =? 0)
  | None => false
  end.

(** [!objective]: [undefined] and the empty string are falsy. *)
Definition truthyStr (o : option string) : bool :=
  match o with
  | Some s => negb (String.eqb s "")
  | None => false
  end.

(** [obj.streak || 0] *)
Definition orZero (v : Z) : Z := if v =? 0 then 0 else v.

(** ** The submit command (lines 110-248) *)

(** The three assignments of lines 172-183, repeated at lines 227-229 and
    324-326: each [if] that matches overwrites [nextAllowed]. *)
Definition cooldown (freq : string) (lastSub nextAllowed : Z) : Z :=
  let nextAllowed :=
    if String.eqb freq "daily" then lastSub + 22 * 60 * 60 * 1000
    else nextAllowed in
  let nextAllowed :=
    if String.eqb freq "weekly" then lastSub + (7 * 24 - 6) * 60 * 60 * 1000
    else nextAllowed in
  let nextAllowed :=
    if String.eqb freq "monthly" then lastSub + (30 * 24 - 6) * 60 * 60 * 1000
    else nextAllowed in
  nextAllowed.

(** [nextAllowed] as it stands at line 184 (or at line 196 when the block
    of line 171 is skipped). *)
Definition nextAllowedOf (f : Fields) : Z :=
  match lastSubmitted f with
  | Some ls => if truthyNum (Some ls) then cooldown (frequency f) ls 0 else 0
  | None => 0
  end.

(** The test that leads to the early return of lines 184-194. *)
Definition onCooldown (f : Fields) (now : Z) : bool :=
  truthyNum (lastSubmitted f) && (now <? nextAllowedOf f).

(** The outcome of the command.  The reply texts are built from these
    values: the two time stamps are shown as [floor(nextAllowed / 1000)]
    and the streak only when it exceeds 3. *)
Inductive Response : Type :=
| MissingBoth
| MissingImage
| MissingObjective
| NotFound (objective : string)
| CooldownActive (nextAllowed : Z)
| Accepted (streak : Z) (nextAllowed : Z) (url : string).

Record SubmitRequest : Type := mkSubmit {
  reqUser : string;
  (** the resolved attachment's [url], when one was found (lines 117-124) *)
  reqAttachment : option string;
  (** [objectiveOption?.value?.trim()] *)
  reqObjective : option string
}.

Section Host.

(** The offset of the host's local time from UTC, in milliseconds, at a
    given instant: [getMonth] and [getFullYear] read local time. *)
Variable LocalTZA : Z -> Z.

Definition LocalTime (t : Z) : Z := t + LocalTZA t.
Definition getMonth (t : Z) : Z := Ecma.MonthFromTime (LocalTime t).
Definition getFullYear (t : Z) : Z := Ecma.YearFromTime (LocalTime t).

(** [new Date(obj.lastStreakDay)]: a date-only text is read as UTC. *)
Definition parseDay (day : Z) : Z := day * Ecma.msPerDay.

(** [today.toISOString().split('T')[0]] *)
Definition isoDay (t : Z) : Z := Ecma.Day t.

(** Lines 202-216: [today] is the instant read at line 201. *)
Definition isConsecutive (freq : string) (lastDay : option Z) (today : Z)
  : bool :=
  match lastDay with
  | None => false
  | Some day =>
    let lastStreakDay := parseDay day in
    if String.eqb freq "daily" then
      (today - lastStreakDay) / (24 * 60 * 60 * 1000) =? 1
    else if String.eqb freq "weekly" then
      (today - lastStreakDay) / (7 * 24 * 60 * 60 * 1000) =? 1
    else if String.eqb freq "monthly" then
      (getMonth today =? getMonth lastStreakDay + 1)
      && (getFullYear today =? getFullYear lastStreakDay)
    else false
  end.

(** Lines 198-222: the row as it is handed to [upsertObjective]. *)
Definition recordSubmission (f : Fields) (now today : Z) : Fields :=
  mkFields (frequency f)
           (Some now)
           (if isConsecutive (frequency f) (lastStreakDay f) today
            then orZero (streak f) + 1 else 1)
           (Some (isoDay today))
           (lastReminded f).

(** The handler.  [now] is [Date.now()] of line 169 and [today] the time
    value of [new Date()] of line 201, two readings of the clock. *)
Definition submit (req : SubmitRequest) (now today : Z) (db : Table)
  : Table * Response :=
  let attachment := reqAttachment req in
  let objective := reqObjective req in
  if negb (bool_decide (is_Some attachment)) && negb (truthyStr objective)
  then (db, MissingBoth)
  else if negb (bool_decide (is_Some attachment)) then (db, MissingImage)
  else if negb (truthyStr objective) then (db, MissingObjective)
  else
    let objective := default "" objective in
    match getObjective (reqUser req) objective db with
    | None => (db, NotFound objective)
    | Some (key, f) =>
      if onCooldown f now then (db, CooldownActive (nextAllowedOf f))
      else
        let f' := recordSubmission f now today in
        let db' := upsertObjective (key, f') db in
        let nextAllowed := cooldown (frequency f') now (nextAllowedOf f) in
        (db', Accepted (streak f') nextAllowed (default "" attachment))
    end.

(** [submit] for each pair of clock readings in turn. *)
Fixpoint submitAll (req : SubmitRequest) (clock : list (Z * Z)) (db : Table)
  : Table * list Response :=
  match clock with
  | [] => (db, [])
  | (now, today) :: rest =>
    let (db1, r) := submit req now today db in
    let (db2, rs) := submitAll req rest db1 in
    (db2, r :: rs)
  end.

End Host.

(** ** The reminder job (lines 71-97) *)

(** What the two awaited calls of lines 84-88 did for one row. *)
Inductive DmOutcome : Type :=
| Delivered   (** [fetch] gave a user and [send] returned *)
| NoUser      (** [fetch] gave a falsy value: nothing sent, nothing thrown *)
| Threw.      (** [fetch] or [send] threw: caught and logged at line 94 *)

(** [col IS NULL OR col < cutoff] *)
Definition olderThan (cutoff : Z) (col : option Z) : bool :=
  match col with
  | None => true
  | Some v => v <? cutoff
  end.

Definition isStale (cutoff : Z) (f : Fields) : bool :=
  olderThan cutoff (lastSubmitted f) && olderThan cutoff (lastReminded f).

(** The [SELECT] of lines 76-80. *)
Definition staleObjectives (cutoff : Z) (db : Table) : list Row :=
  map_to_list (filter (fun kf : Key * Fields => isStale cutoff kf.2 = true) db).

(** [UPDATE objectives SET lastReminded = ? WHERE userId = ? AND name = ?] *)
Definition markReminded (now : Z) (key : Key) (db : Table) : Table :=
  alter (withLastReminded (Some now)) key db.

(** One turn of the loop of lines 82-96; the second component collects the
    user ids written by [console.error]. *)
Definition remindOne (now : Z) (dm : Key -> DmOutcome)
    (st : Table * list string) (obj : Row) : Table * list string :=
  match dm obj.1 with
  | Delivered => (markReminded now obj.1 st.1, st.2)
  | NoUser => st
  | Threw => (st.1, (st.2 ++ [obj.1.1])%list)
  end.

Definition sweep (now : Z) (dm : Key -> DmOutcome) (db : Table)
  : Table * list string :=
  let cutoff := now - 24 * 60 * 60 * 1000 in
  foldl (remindOne now dm) (db, []) (staleObjectives cutoff db).


(** ** The attachment of a submit command (lines 112-124) *)

Record Attachment : Type := mkAttachment {
  attId : string;
  attUrl : string
}.

(** The [value] of the [image] option: an attachment object, or the id of
    one. *)
Inductive ImageValue : Type :=
| ImageObject (att : Attachment)
| ImageId (id : string).

(** [imageOption?.value] as a condition: an object is truthy, a string
    unless it is empty. *)
Definition imageTruthy (image : option ImageValue) : bool :=
  match image with
  | Some (ImageObject _) => true
  | Some (ImageId id) => negb (String.eqb id "")
  | None => false
  end.

(** The value used as a property name ([attachments[imageOption.value]]):
    an object is converted to the text [[object Object]]. *)
Definition imageKey (v : ImageValue) : string :=
  match v with
  | ImageObject _ => "[object Object]"
  | ImageId id => id
  end.

(** [att.id === imageOption.value]: an object equals no id. *)
Definition imageIs (v : ImageValue) (att : Attachment) : bool :=
  match v with
  | ImageObject _ => false
  | ImageId id => String.eqb (attId att) id
  end.

(** Lines 117-124.  [resolved] is [data.resolved.attachments] and
    [attachments] is [req.body.attachments], each when present. *)
Definition resolveAttachment (image : option ImageValue)
    (resolved : option (gmap string Attachment))
    (attachments : option (list Attachment)) : option Attachment :=
  match image with
  | None => None
  | Some v =>
    let inline :=
      match v with
      | ImageObject att => negb (String.eqb (attUrl att) "")
      | ImageId _ => false
      end in
    if imageTruthy image && inline then
      match v with
      | ImageObject att => Some att
      | ImageId _ => None
      end
    else if imageTruthy image && bool_decide (is_Some resolved) then
      default ∅ resolved !! imageKey v
    else if imageTruthy image && bool_decide (is_Some attachments) then
      List.find (imageIs v) (default [] attachments)
    else None
  end.

(** The body of a submit interaction, as far as the handler reads it. *)
Record SubmitBody : Type := mkBody {
  bodyUser : string;
  bodyImage : option ImageValue;
  (** [objectiveOption?.value?.trim()] *)
  bodyObjective : option string;
  bodyResolved : option (gmap string Attachment);
  bodyAttachments : option (list Attachment)
}.

Definition submitRequestOf (body : SubmitBody) : SubmitRequest :=
  mkSubmit (bodyUser body)
           (attUrl <$> resolveAttachment (bodyImage body) (bodyResolved body)
                         (bodyAttachments body))
           (bodyObjective body).

(** ** The create_objective command (lines 259-300) *)

Record CreateRequest : Type := mkCreate {
  crUser : string;
  (** [nameOption?.value?.trim()] *)
  crName : option string;
  (** [freqOption?.value] *)
  crFrequency : option string
}.

Inductive CreateResponse : Type :=
| CreateMissingFields
| AlreadyExists (objectiveName : string)
| Created (objectiveName freq : string)
| CreateThrew.   (** the [INSERT] of line 59 was refused *)

Definition create_objective (req : CreateRequest) (db : Table)
  : Table * CreateResponse :=
  let objectiveName := crName req in
  let freq := crFrequency req in
  if negb (truthyStr objectiveName) || negb (truthyStr freq)
  then (db, CreateMissingFields)
  else
    let objectiveName := default "" objectiveName in
    let freq := default "" freq in
    if bool_decide (is_Some (getObjective (crUser req) objectiveName db))
    then (db, AlreadyExists objectiveName)
    else
      match createObjective (crUser req) objectiveName freq db with
      | Some db' => (db', Created objectiveName freq)
      | None => (db, CreateThrew)
      end.

(** ** The list_objectives command (lines 308-346) *)

(** [timeStr]: the text [Available now], or the Discord time stamp
    [<t:seconds:R>]. *)
Inductive Availability : Type :=
| AvailableNow
| AvailableAt (seconds : Z).

(** One line of the reply; the streak is printed only above 3. *)
Record ListLine : Type := mkLine {
  lineName : string;
  lineFrequency : string;
  lineWhen : Availability;
  lineStreak : option Z
}.

Inductive ListResponse : Type :=
| NoObjectives
| Objectives (lines : list ListLine).

(** The callback of [objectives.map] (lines 321-338). *)
Definition listLine (now : Z) (obj : Row) : ListLine :=
  let f := obj.2 in
  let nextAllowed := 0 in
  let nextAllowed :=
    if truthyNum (lastSubmitted f)
    then cooldown (frequency f) (default 0 (lastSubmitted f)) nextAllowed
    else nextAllowed in
  let timeStr :=
    if negb (truthyNum (lastSubmitted f)) then AvailableNow
    else if nextAllowed <=? now then AvailableNow
    else AvailableAt (nextAllowed / 1000) in
  mkLine obj.1.2 (frequency f) timeStr
         (if 3 <? streak f then Some (streak f) else None).

(** The lines come in the order in which the rows are listed; the query
    has no [ORDER BY], and the statements below do not depend on it. *)
Definition list_objectives (userId : string) (now : Z) (db : Table)
  : ListResponse :=
  let objectives := getObjectives userId db in
  if (length objectives =? 0)%nat then NoObjectives
  else Objectives (map (listLine now) objectives).

(** ** The delete_objective command (lines 354-388) *)

Record DeleteRequest : Type := mkDelete {
  delUser : string;
  (** [nameOption?.value?.trim()] *)
  delName : option string
}.

Inductive DeleteResponse : Type :=
| DeleteMissingName
| DeleteNotFound (objectiveName : string)
| Deleted (objectiveName : string).

Definition delete_objective (req : DeleteRequest) (db : Table)
  : Table * DeleteResponse :=
  let objectiveName := delName req in
  if negb (truthyStr objectiveName) then (db, DeleteMissingName)
  else
    let objectiveName := default "" objectiveName in
    if negb (bool_decide (is_Some (getObjective (delUser req) objectiveName db)))
    then (db, DeleteNotFound objectiveName)
    else (deleteObjective (delUser req) objectiveName db, Deleted objectiveName).

(** ** The route (lines 100-395) *)

(** [data] of an application command, by its [name]. *)
Inductive Command : Type :=
| SubmitCmd (body : SubmitBody)
| CreateCmd (req : CreateRequest)
| ListCmd (userId : string)
| DeleteCmd (req : DeleteRequest)
| OtherCmd (name : string).

(** [req.body], by its [type]. *)
Inductive Interaction : Type :=
| Ping
| ApplicationCommand (data : Command)
| OtherInteraction.

Inductive Reply : Type :=
| Pong
| SubmitReply (r : Response)
| CreateReply (r : CreateResponse)
| ListReply (r : ListResponse)
| DeleteReply (r : DeleteResponse)
| Status400
| Status404.

Definition interactions (tza : Z -> Z) (body : Interaction) (now today : Z)
    (db : Table) : Table * Reply :=
  match body with
  | Ping => (db, Pong)
  | ApplicationCommand (SubmitCmd b) =>
    let out := submit tza (submitRequestOf b) now today db in
    (out.1, SubmitReply out.2)
  | ApplicationCommand (CreateCmd req) =>
    let out := create_objective req db in (out.1, CreateReply out.2)
  | ApplicationCommand (ListCmd userId) =>
    (db, ListReply (list_objectives userId now db))
  | ApplicationCommand (DeleteCmd req) =>
    let out := delete_objective req db in (out.1, DeleteReply out.2)
  | ApplicationCommand (OtherCmd _) => (db, Status400)
  | OtherInteraction => (db, Status404)
  end.

(** What happens to the table over time: a request is handled, or the
    hourly timer fires. *)
Inductive Event : Type :=
| Request (body : Interaction) (now today : Z)
| Tick (now : Z) (dm : Key -> DmOutcome).

Definition step (tza : Z -> Z) (db : Table) (e : Event) : Table :=
  match e with
  | Request body now today => (interactions tza body now today db).1
  | Tick now dm => (sweep now dm db).1
  end.

Definition run (tza : Z -> Z) (events : list Event) (db : Table) : Table :=
  foldl (step tza) db events.


(** ** Vocabulary of the statements *)

(** [h] hours in milliseconds. *)
Definition hours (h : Z) : Z := h * 3600000.

(** The three frequencies the handler knows. *)
Definition recognised (freq : string) : bool :=
  String.eqb freq "daily" || String.eqb freq "weekly"
  || String.eqb freq "monthly".

(** A host whose local time is UTC, and one five hours behind it all year
    (TZ=America/Bogota). *)
Definition utc : Z -> Z := fun _ => 0.
Definition bogota : Z -> Z := fun _ => - hours 5.

(** The request of a user who names an objective and attaches an image. *)
Definition request (user name url : string) : SubmitRequest :=
  mkSubmit user (Some url) (Some name).

(** The row was marked by the [UPDATE] of line 89. *)
Definition delivered (o : DmOutcome) : bool :=
  match o with
  | Delivered => true
  | _ => false
  end.

(** A daily objective last submitted on 2023-11-14 at 22:13:20 UTC (day
    19675), with a streak of 2. *)
Definition dailyRow : Fields :=
  mkFields "daily" (Some 1700000000000) 2 (Some 19675) None.
Definition dailyTable : Table := {[ ("u", "run") := dailyRow ]}.

(** An objective stored with a frequency the handler does not know. *)
Definition yearlyRow : Fields :=
  mkFields "yearly" (Some 1700000000000) 0 (Some 19675) None.
Definition yearlyTable : Table := {[ ("u", "taxes") := yearlyRow ]}.

(** Two users with one stale objective each, the second never submitted;
    the first user cannot be reached. *)
Definition staleTable : Table :=
  <[ ("ann", "run") := dailyRow ]>
    {[ ("bob", "read") := mkFields "weekly" None 0 None None ]}.
Definition annUnreachable (k : Key) : DmOutcome :=
  if String.eqb k.1 "ann" then Threw else Delivered.

(** A monthly objective last submitted on 2024-12-01 at 11:00 UTC, with a
    streak of 3. *)
Definition decemberTable : Table :=
  {[ ("u", "rent") :=
       mkFields "monthly" (Some 1733050800000) 3 (Some 20058) None ]}.

(** The row an interaction names: the only one its handler writes to. *)
Definition targetOf (body : Interaction) : option Key :=
  match body with
  | ApplicationCommand (SubmitCmd b) =>
    Some (bodyUser b, default "" (bodyObjective b))
  | ApplicationCommand (CreateCmd req) =>
    Some (crUser req, default "" (crName req))
  | ApplicationCommand (DeleteCmd req) =>
    Some (delUser req, default "" (delName req))
  | _ => None
  end.

(** What every row written by the handlers looks like: a name and a
    frequency that are not empty, and either no submission yet (streak 0,
    no streak day) or one (a positive streak and a streak day). *)
Definition rowOk (k : Key) (f : Fields) : Prop :=
  k.2 <> "" /\ frequency f <> "" /\ 0 <= streak f
  /\ (lastSubmitted f = None <-> streak f = 0)
  /\ (lastSubmitted f = None <-> lastStreakDay f = None).

Definition tableOk (db : Table) : Prop :=
  forall k f, db !! k = Some f -> rowOk k f.

(** A weekly objective submitted on 2023-11-14 and not reminded yet. *)
Definition weeklyRow : Fields :=
  mkFields "weekly" (Some 1700000000000) 1 (Some 19675) None.
Definition weeklyTable : Table := {[ ("u", "call") := weeklyRow ]}.

(** A daily objective submitted at 00:30 UTC of day 19675. *)
Definition earlyRow : Fields :=
  mkFields "daily" (Some (19675 * 86400000 + 1800000)) 5 (Some 19675) None.
Definition earlyTable : Table := {[ ("u", "run") := earlyRow ]}.

(** A create, two submits 23 hours apart, a sweep, and a delete of another
    name. *)
Definition sampleEvents : list Event :=
  [ Request (ApplicationCommand
               (CreateCmd (mkCreate "u" (Some "run") (Some "daily"))))
            1700000000000 1700000000000;
    Request (ApplicationCommand
               (SubmitCmd (mkBody "u"
                             (Some (ImageObject (mkAttachment "1" "img")))
                             (Some "run") None None)))
            1700000001000 1700000001000;
    Request (ApplicationCommand
               (SubmitCmd (mkBody "u" (Some (ImageId "7")) (Some "run")
                             (Some {[ "7" := mkAttachment "7" "img2" ]})
                             None)))
            1700082801000 1700082801000;
    Tick 1700200000000 (fun _ => Delivered);
    Request (ApplicationCommand (DeleteCmd (mkDelete "u" (Some "swim"))))
            1700200000001 1700200000001 ].

(** A daily objective whose last submission did not fall on a whole
    second. *)
Definition msRow : Fields :=
  mkFields "daily" (Some 1700000000123) 1 (Some 19675) None.
Definition msTable : Table := {[ ("u", "walk") := msRow ]}.

(** * Facts *)

(** ** Calendar arithmetic *)

Lemma Day_parseDay (day : Z) : Ecma.Day (parseDay day) = day.
Proof.
  unfold Ecma.Day, parseDay, Ecma.msPerDay.
  apply Z.div_mul. discriminate.
Qed.

(** Days elapsed since a UTC midnight are the difference of day numbers. *)
Lemma days_since_midnight (t day : Z) :
  (t - parseDay day) / (24 * 60 * 60 * 1000) = isoDay t - day.
Proof.
  unfold isoDay, Ecma.Day, parseDay, Ecma.msPerDay.
  change (24 * 60 * 60 * 1000) with 86400000.
  replace (t - day * 86400000) with (t + (- day) * 86400000) by ring.
  rewrite Z.div_add by discriminate. ring.
Qed.

Lemma weeks_since_midnight (t day : Z) :
  (t - parseDay day) / (7 * 24 * 60 * 60 * 1000) = (isoDay t - day) / 7.
Proof.
  rewrite <- days_since_midnight.
  change (7 * 24 * 60 * 60 * 1000) with ((24 * 60 * 60 * 1000) * 7).
  symmetry. apply Z.div_div; [discriminate | reflexivity].
Qed.

(** [YearFromDay d] is the year whose days include [d]. *)
Lemma YearFromDay_bounds (d : Z) :
  Ecma.DayFromYear (Ecma.YearFromDay d) <= d
  < Ecma.DayFromYear (Ecma.YearFromDay d + 1).
Proof.
  unfold Ecma.YearFromDay.
  remember (1970 + 400 * d / 146097) as y eqn:Hy.
  assert (Hlo : 146097 * (y - 1970) <= 400 * d < 146097 * (y - 1970) + 146097).
  { subst y. pose proof (Z.mod_pos_bound (400 * d) 146097 eq_refl).
    pose proof (Z.div_mod (400 * d) 146097). lia. }
  clear Hy.
  destruct (Z.ltb_spec d (Ecma.DayFromYear y)) as [Hlt | Hge].
  - unfold Ecma.DayFromYear in *.
    pose proof (Z.div_mod (y - 1 - 1969) 4); pose proof (Z.mod_pos_bound (y - 1 - 1969) 4 eq_refl).
    pose proof (Z.div_mod (y - 1 - 1901) 100); pose proof (Z.mod_pos_bound (y - 1 - 1901) 100 eq_refl).
    pose proof (Z.div_mod (y - 1 - 1601) 400); pose proof (Z.mod_pos_bound (y - 1 - 1601) 400 eq_refl).
    pose proof (Z.div_mod (y - 1969) 4); pose proof (Z.mod_pos_bound (y - 1969) 4 eq_refl).
    pose proof (Z.div_mod (y - 1901) 100); pose proof (Z.mod_pos_bound (y - 1901) 100 eq_refl).
    pose proof (Z.div_mod (y - 1601) 400); pose proof (Z.mod_pos_bound (y - 1601) 400 eq_refl).
    replace (y - 1 + 1) with y by ring.
    lia.
  - destruct (Z.leb_spec (Ecma.DayFromYear (y + 1)) d) as [Hle | Hgt]; [| lia].
    unfold Ecma.DayFromYear in *.
    pose proof (Z.div_mod (y + 1 + 1 - 1969) 4); pose proof (Z.mod_pos_bound (y + 1 + 1 - 1969) 4 eq_refl).
    pose proof (Z.div_mod (y + 1 + 1 - 1901) 100); pose proof (Z.mod_pos_bound (y + 1 + 1 - 1901) 100 eq_refl).
    pose proof (Z.div_mod (y + 1 + 1 - 1601) 400); pose proof (Z.mod_pos_bound (y + 1 + 1 - 1601) 400 eq_refl).
    pose proof (Z.div_mod (y + 1 - 1969) 4); pose proof (Z.mod_pos_bound (y + 1 - 1969) 4 eq_refl).
    pose proof (Z.div_mod (y + 1 - 1901) 100); pose proof (Z.mod_pos_bound (y + 1 - 1901) 100 eq_refl).
    pose proof (Z.div_mod (y + 1 - 1601) 400); pose proof (Z.mod_pos_bound (y + 1 - 1601) 400 eq_refl).
    lia.
Qed.

Lemma MonthFromDay_range (d : Z) : 0 <= Ecma.MonthFromDay d <= 11.
Proof.
  unfold Ecma.MonthFromDay.
  repeat match goal with
         | |- context [if ?b then _ else _] => destruct b
         end; lia.
Qed.

(** 2024-02-29, 2024-03-01, 2024-12-31 and 2025-01-01. *)
Example calendar_samples :
  (Ecma.YearFromDay 19782, Ecma.MonthFromDay 19782) = (2024, 1)
  /\ (Ecma.YearFromDay 19783, Ecma.MonthFromDay 19783) = (2024, 2)
  /\ (Ecma.YearFromDay 20088, Ecma.MonthFromDay 20088) = (2024, 11)
  /\ (Ecma.YearFromDay 20089, Ecma.MonthFromDay 20089) = (2025, 0)
  /\ (Ecma.YearFromDay (-1), Ecma.MonthFromDay (-1)) = (1969, 11).
Proof. repeat split; vm_compute; reflexivity. Qed.

(** ** The submit command *)

Lemma truthyStr_Some (s : string) : s <> "" -> truthyStr (Some s) = true.
Proof.
  intros Hs. unfold truthyStr.
  destruct (String.eqb_spec s ""); [contradiction | reflexivity].
Qed.

Lemma truthyNum_Some (v : Z) : v <> 0 -> truthyNum (Some v) = true.
Proof.
  intros Hv. unfold truthyNum.
  destruct (Z.eqb_spec v 0); [contradiction | reflexivity].
Qed.

(** Past the argument checks and the lookup, the command is the cooldown
    test followed by the update. *)
Lemma submit_found (tza : Z -> Z) (user name url : string) (db : Table)
    (f : Fields) (now today : Z) :
  name <> "" ->
  db !! (user, name) = Some f ->
  submit tza (request user name url) now today db =
    if onCooldown f now then (db, CooldownActive (nextAllowedOf f))
    else (<[(user, name) := recordSubmission tza f now today]> db,
          Accepted (streak (recordSubmission tza f now today))
                   (cooldown (frequency f) now (nextAllowedOf f)) url).
Proof.
  intros Hname Hrow.
  unfold submit, request, getObjective, upsertObjective.
  cbn [reqAttachment reqObjective reqUser].
  rewrite (truthyStr_Some name Hname).
  rewrite (bool_decide_eq_true_2 (is_Some (Some url))) by eauto.
  cbn [negb andb default from_option id].
  rewrite Hrow. reflexivity.
Qed.

Lemma cooldown_daily (ls na : Z) : cooldown "daily" ls na = ls + hours 22.
Proof. reflexivity. Qed.

Lemma cooldown_weekly (ls na : Z) : cooldown "weekly" ls na = ls + hours 162.
Proof. reflexivity. Qed.

Lemma cooldown_monthly (ls na : Z) : cooldown "monthly" ls na = ls + hours 714.
Proof. reflexivity. Qed.

Lemma recognised_false (freq : string) :
  recognised freq = false ->
  String.eqb freq "daily" = false /\ String.eqb freq "weekly" = false
  /\ String.eqb freq "monthly" = false.
Proof.
  unfold recognised. intros H.
  destruct (String.eqb freq "daily"), (String.eqb freq "weekly"),
    (String.eqb freq "monthly"); try discriminate; auto.
Qed.

Lemma cooldown_unrecognised (freq : string) (ls na : Z) :
  recognised freq = false -> cooldown freq ls na = na.
Proof.
  intros H. destruct (recognised_false freq H) as (Hd & Hw & Hm).
  unfold cooldown. rewrite Hd, Hw, Hm. reflexivity.
Qed.

Lemma nextAllowedOf_set (f : Fields) (t : Z) :
  lastSubmitted f = Some t -> t <> 0 ->
  nextAllowedOf f = cooldown (frequency f) t 0.
Proof.
  intros Hls Ht. unfold nextAllowedOf. rewrite Hls.
  rewrite (truthyNum_Some t Ht). reflexivity.
Qed.

Lemma nextAllowedOf_unrecognised (f : Fields) :
  recognised (frequency f) = false -> nextAllowedOf f = 0.
Proof.
  intros H. unfold nextAllowedOf.
  destruct (lastSubmitted f) as [ls |]; [| reflexivity].
  destruct (truthyNum (Some ls)); [| reflexivity].
  apply cooldown_unrecognised, H.
Qed.

Lemma onCooldown_set (f : Fields) (t now : Z) :
  lastSubmitted f = Some t -> t <> 0 ->
  onCooldown f now = (now <? nextAllowedOf f).
Proof.
  intros Hls Ht. unfold onCooldown.
  rewrite Hls, (truthyNum_Some t Ht). reflexivity.
Qed.

(** C1.  For a row whose [lastSubmitted] is set (a non-zero time stamp, the
    handler's own test), the command is refused with
    [CooldownActive nextAllowed] exactly when [now < nextAllowed], where
    [nextAllowed] is the cooldown policy's value for the row; a refusal
    leaves the table as it was, and a submission at [now = nextAllowed] is
    accepted. *)
Theorem submit_cooldown_gate (tza : Z -> Z) (user name url : string)
    (db : Table) (f : Fields) (t now today : Z) :
  name <> "" ->
  db !! (user, name) = Some f ->
  lastSubmitted f = Some t ->
  t <> 0 ->
  nextAllowedOf f = cooldown (frequency f) t 0
  /\ (now < nextAllowedOf f <->
      exists na, (submit tza (request user name url) now today db).2
                 = CooldownActive na)
  /\ (now < nextAllowedOf f ->
      submit tza (request user name url) now today db
      = (db, CooldownActive (nextAllowedOf f)))
  /\ (now = nextAllowedOf f ->
      exists s na, (submit tza (request user name url) now today db).2
                   = Accepted s na url).
Proof.
  intros Hname Hrow Hls Ht.
  rewrite (submit_found tza user name url db f now today Hname Hrow).
  rewrite (onCooldown_set f t now Hls Ht).
  split; [exact (nextAllowedOf_set f t Hls Ht) |].
  destruct (Z.ltb_spec now (nextAllowedOf f)) as [Hlt | Hge]; cbn.
  - split; [| split].
    + split; [eauto | intros _; exact Hlt].
    + reflexivity.
    + intros ->. lia.
  - split; [| split].
    + split; [lia | intros [na Hna]; discriminate].
    + lia.
    + eauto.
Qed.

(** C2.  With [lastSubmitted = t] set, the policy gives [t + 22h] for
    daily, [t + 162h] for weekly and [t + 714h] for monthly, each strictly
    below [t] plus the nominal 24h, 168h and 720h; the value recomputed
    after an accepted submission at [now] follows the same offsets. *)
Theorem cooldown_below_nominal_period (f : Fields) (t : Z) :
  lastSubmitted f = Some t ->
  t <> 0 ->
  (frequency f = "daily" ->
     nextAllowedOf f = t + hours 22 /\ nextAllowedOf f < t + hours 24
     /\ forall now, cooldown (frequency f) now (nextAllowedOf f) = now + hours 22)
  /\ (frequency f = "weekly" ->
     nextAllowedOf f = t + hours 162 /\ nextAllowedOf f < t + hours 168
     /\ forall now, cooldown (frequency f) now (nextAllowedOf f) = now + hours 162)
  /\ (frequency f = "monthly" ->
     nextAllowedOf f = t + hours 714 /\ nextAllowedOf f < t + hours 720
     /\ forall now, cooldown (frequency f) now (nextAllowedOf f) = now + hours 714).
Proof.
  intros Hls Ht.
  rewrite (nextAllowedOf_set f t Hls Ht).
  split; [| split]; intros Hf; rewrite Hf;
    rewrite ?cooldown_daily, ?cooldown_weekly, ?cooldown_monthly;
    (split; [reflexivity | split; [unfold hours; lia | reflexivity]]).
Qed.

(** ** The streak rules *)

Lemma orZero_id (v : Z) : orZero v = v.
Proof. unfold orZero. destruct (Z.eqb_spec v 0); congruence. Qed.

Lemma isConsecutive_daily (tza : Z -> Z) (day today : Z) :
  isConsecutive tza "daily" (Some day) today = (isoDay today - day =? 1).
Proof.
  unfold isConsecutive. cbn [String.eqb Ascii.eqb Bool.eqb].
  rewrite days_since_midnight. reflexivity.
Qed.

Lemma isConsecutive_weekly (tza : Z -> Z) (day today : Z) :
  isConsecutive tza "weekly" (Some day) today = ((isoDay today - day) / 7 =? 1).
Proof.
  unfold isConsecutive. cbn [String.eqb Ascii.eqb Bool.eqb].
  rewrite weeks_since_midnight. reflexivity.
Qed.

Lemma isConsecutive_monthly (tza : Z -> Z) (day today : Z) :
  isConsecutive tza "monthly" (Some day) today =
  (getMonth tza today =? getMonth tza (parseDay day) + 1)
  && (getFullYear tza today =? getFullYear tza (parseDay day)).
Proof. reflexivity. Qed.

Lemma isConsecutive_unrecognised (tza : Z -> Z) (freq : string)
    (lastDay : option Z) (today : Z) :
  recognised freq = false -> isConsecutive tza freq lastDay today = false.
Proof.
  intros H. destruct (recognised_false freq H) as (Hd & Hw & Hm).
  unfold isConsecutive. destruct lastDay; [| reflexivity].
  rewrite Hd, Hw, Hm. reflexivity.
Qed.

Lemma isConsecutive_first (tza : Z -> Z) (freq : string) (today : Z) :
  isConsecutive tza freq None today = false.
Proof. reflexivity. Qed.

(** C3.  A daily submission is consecutive exactly when the UTC calendar
    day of the submission is the day after [lastStreakDay], whatever the
    time of day and however many hours went by; the streak recorded for
    the row follows.  After day 10, any instant of day 11 is consecutive
    and any instant of day 12 is not. *)
Theorem daily_consecutive_iff_next_calendar_day (tza : Z -> Z)
    (day today : Z) :
  (isConsecutive tza "daily" (Some day) today = true
   <-> isoDay today - day = 1)
  /\ (forall f now,
        frequency f = "daily" -> lastStreakDay f = Some day ->
        streak (recordSubmission tza f now today)
        = if isoDay today - day =? 1 then streak f + 1 else 1)
  /\ (isoDay today = 11 -> isConsecutive tza "daily" (Some 10) today = true)
  /\ (isoDay today = 12 -> isConsecutive tza "daily" (Some 10) today = false).
Proof.
  split; [| split; [| split]].
  - rewrite isConsecutive_daily. apply Z.eqb_eq.
  - intros f now Hf Hday. unfold recordSubmission. cbn [streak].
    rewrite Hf, Hday, isConsecutive_daily, orZero_id. reflexivity.
  - intros H. rewrite isConsecutive_daily, H. reflexivity.
  - intros H. rewrite isConsecutive_daily, H. reflexivity.
Qed.

(** C4.  A weekly submission is consecutive exactly when the number of
    calendar days since [lastStreakDay], divided by 7 and floored, is 1,
    that is for 7 to 13 days; 0 to 6 days are not consecutive. *)
Theorem weekly_consecutive_iff_one_whole_week (tza : Z -> Z)
    (day today : Z) :
  (isConsecutive tza "weekly" (Some day) today = true
   <-> (isoDay today - day) / 7 = 1)
  /\ (isConsecutive tza "weekly" (Some day) today = true
      <-> 7 <= isoDay today - day <= 13)
  /\ (0 <= isoDay today - day <= 6 ->
      isConsecutive tza "weekly" (Some day) today = false)
  /\ (forall f now,
        frequency f = "weekly" -> lastStreakDay f = Some day ->
        streak (recordSubmission tza f now today)
        = if (isoDay today - day) / 7 =? 1 then streak f + 1 else 1).
Proof.
  rewrite isConsecutive_weekly.
  pose proof (Z.div_mod (isoDay today - day) 7 ltac:(discriminate)) as Hdm.
  pose proof (Z.mod_pos_bound (isoDay today - day) 7 eq_refl) as Hmod.
  split; [| split; [| split]].
  - apply Z.eqb_eq.
  - rewrite Z.eqb_eq. lia.
  - intros H. apply Z.eqb_neq. lia.
  - intros f now Hf Hday. unfold recordSubmission. cbn [streak].
    rewrite Hf, Hday, isConsecutive_weekly, orZero_id. reflexivity.
Qed.

(** On a host whose local time is UTC the monthly rule compares the month
    and the year of the two calendar dates. *)
Lemma monthly_consecutive_on_utc_host (day today : Z) :
  isConsecutive utc "monthly" (Some day) today =
  (Ecma.MonthFromDay (isoDay today) =? Ecma.MonthFromDay day + 1)
  && (Ecma.YearFromDay (isoDay today) =? Ecma.YearFromDay day).
Proof.
  rewrite isConsecutive_monthly.
  unfold getMonth, getFullYear, LocalTime, utc, Ecma.MonthFromTime,
    Ecma.YearFromTime.
  rewrite !Z.add_0_r, Day_parseDay. reflexivity.
Qed.

(** There, a December [lastStreakDay] is followed by no consecutive
    submission at all, January included. *)
Lemma monthly_after_december_on_utc_host (day today : Z) :
  Ecma.MonthFromDay day = 11 ->
  isConsecutive utc "monthly" (Some day) today = false.
Proof.
  intros Hdec. rewrite monthly_consecutive_on_utc_host, Hdec.
  pose proof (MonthFromDay_range (isoDay today)) as Hr.
  destruct (Z.eqb_spec (Ecma.MonthFromDay (isoDay today)) (11 + 1));
    [lia | reflexivity].
Qed.

(** C5 (the code departs from the claim).  On a host five hours behind
    UTC, [lastStreakDay] 2024-12-01 (day 20058, a December date) and a
    submission at 2025-01-01T02:00:00Z (ISO date 2025-01-01, a January date
    of the next year) are read as local November 2024 and local December
    2024: the submission counts as consecutive and the streak goes from 3
    to 4.  On a UTC host the same submission resets the streak. *)
Theorem monthly_rule_reads_host_local_time :
  (Ecma.YearFromDay 20058, Ecma.MonthFromDay 20058) = (2024, 11)
  /\ isoDay 1735696800000 = 20089
  /\ (Ecma.YearFromDay 20089, Ecma.MonthFromDay 20089) = (2025, 0)
  /\ (getFullYear bogota (parseDay 20058), getMonth bogota (parseDay 20058))
     = (2024, 10)
  /\ (getFullYear bogota 1735696800000, getMonth bogota 1735696800000)
     = (2024, 11)
  /\ isConsecutive bogota "monthly" (Some 20058) 1735696800000 = true
  /\ recordSubmission bogota
       (mkFields "monthly" (Some 1733050800000) 3 (Some 20058) None)
       1735696800000 1735696800000
     = mkFields "monthly" (Some 1735696800000) 4 (Some 20089) None
  /\ (submit bogota (request "u" "rent" "img") 1735696800000 1735696800000
        decemberTable).2
     = Accepted 4 (1735696800000 + hours 714) "img"
  /\ isConsecutive utc "monthly" (Some 20058) 1735696800000 = false
  /\ (submit utc (request "u" "rent" "img") 1735696800000 1735696800000
        decemberTable).2
     = Accepted 1 (1735696800000 + hours 714) "img".
Proof. repeat split; vm_compute; reflexivity. Qed.

(** ** Accepted submissions *)

Lemma submit_accepted_inv (tza : Z -> Z) (user name url : string)
    (db : Table) (f : Fields) (now today s na : Z) (u : string) :
  name <> "" ->
  db !! (user, name) = Some f ->
  (submit tza (request user name url) now today db).2 = Accepted s na u ->
  submit tza (request user name url) now today db
  = (<[(user, name) := recordSubmission tza f now today]> db,
     Accepted (streak (recordSubmission tza f now today))
              (cooldown (frequency f) now (nextAllowedOf f)) url).
Proof.
  intros Hname Hrow.
  rewrite (submit_found tza user name url db f now today Hname Hrow).
  destruct (onCooldown f now); cbn; [discriminate | reflexivity].
Qed.

(** C6.  An accepted submission stores [streak + 1] when the submission is
    consecutive and 1 otherwise, the first submission (no [lastStreakDay])
    being of the second kind; [lastStreakDay] becomes the calendar date of
    the submission in either case. *)
Theorem accepted_submission_sets_streak (tza : Z -> Z)
    (user name url : string) (db : Table) (f : Fields)
    (now today s na : Z) :
  name <> "" ->
  db !! (user, name) = Some f ->
  (submit tza (request user name url) now today db).2 = Accepted s na url ->
  exists f',
    (submit tza (request user name url) now today db).1 !! (user, name)
    = Some f'
    /\ s = streak f'
    /\ streak f' = (if isConsecutive tza (frequency f) (lastStreakDay f) today
                    then streak f + 1 else 1)
    /\ (lastStreakDay f = None -> streak f' = 1)
    /\ lastStreakDay f' = Some (isoDay today)
    /\ lastSubmitted f' = Some now
    /\ frequency f' = frequency f
    /\ lastReminded f' = lastReminded f.
Proof.
  intros Hname Hrow Hacc.
  pose proof (submit_accepted_inv tza user name url db f now today s na url
                Hname Hrow Hacc) as Heq.
  rewrite Heq in Hacc |- *. cbn [fst snd] in *.
  exists (recordSubmission tza f now today).
  rewrite lookup_insert_eq.
  injection Hacc as Hs _.
  unfold recordSubmission in *. cbn [streak lastStreakDay lastSubmitted
    frequency lastReminded] in *.
  rewrite orZero_id in *.
  repeat split; try congruence.
  intros Hnone. rewrite Hnone. reflexivity.
Qed.

(** C7.  With a frequency other than daily, weekly and monthly,
    [nextAllowed] is 0 whatever [lastSubmitted] holds, and a submission at
    any time of the epoch clock ([0 <= now]) is accepted, never refused. *)
Theorem unrecognised_frequency_always_eligible (tza : Z -> Z)
    (user name url : string) (db : Table) (f : Fields) (now today : Z) :
  name <> "" ->
  db !! (user, name) = Some f ->
  recognised (frequency f) = false ->
  0 <= now ->
  nextAllowedOf f = 0
  /\ onCooldown f now = false
  /\ (forall na, (submit tza (request user name url) now today db).2
                 <> CooldownActive na)
  /\ exists s, (submit tza (request user name url) now today db).2
               = Accepted s 0 url.
Proof.
  intros Hname Hrow Hfreq Hnow.
  pose proof (nextAllowedOf_unrecognised f Hfreq) as Hna.
  assert (Hcd : onCooldown f now = false).
  { unfold onCooldown. rewrite Hna.
    destruct (Z.ltb_spec now 0); [lia |]. apply andb_false_r. }
  split; [exact Hna | split; [exact Hcd |]].
  rewrite (submit_found tza user name url db f now today Hname Hrow), Hcd.
  cbn [snd]. rewrite Hna, (cooldown_unrecognised _ now 0 Hfreq).
  split; [discriminate | eauto].
Qed.

(** C10.  With a frequency other than daily, weekly and monthly no
    submission is consecutive: every accepted submission of a run answers
    with streak 1, and the stored streak is 1 as soon as one was accepted
    (the row is untouched otherwise), however long the run. *)
Theorem unrecognised_frequency_streak_stays_one (tza : Z -> Z)
    (user name url : string) (clock : list (Z * Z)) (db : Table)
    (f : Fields) :
  name <> "" ->
  db !! (user, name) = Some f ->
  recognised (frequency f) = false ->
  (forall lastDay today,
     isConsecutive tza (frequency f) lastDay today = false)
  /\ Forall (fun r => r = Accepted 1 0 url \/ r = CooldownActive 0)
            (submitAll tza (request user name url) clock db).2
  /\ (Forall (fun c => 0 <= c.1) clock ->
      (submitAll tza (request user name url) clock db).2
      = map (fun _ => Accepted 1 0 url) clock)
  /\ exists f',
       (submitAll tza (request user name url) clock db).1 !! (user, name)
       = Some f'
       /\ frequency f' = frequency f
       /\ (streak f' = 1 \/ f' = f)
       /\ (Forall (fun c => 0 <= c.1) clock -> clock <> [] -> streak f' = 1).
Proof.
  intros Hname Hrow Hfreq.
  split; [intros; apply isConsecutive_unrecognised, Hfreq |].
  revert db f Hrow Hfreq.
  induction clock as [| [now today] rest IH]; intros db f Hrow Hfreq.
  - cbn. repeat split; [constructor | exists f; auto].
    repeat split; auto. intros _ Hne. contradiction.
  - cbn [submitAll].
    pose proof (nextAllowedOf_unrecognised f Hfreq) as Hna.
    rewrite (submit_found tza user name url db f now today Hname Hrow).
    destruct (onCooldown f now) eqn:Hcd.
    + (* refused: the table is the same *)
      specialize (IH db f Hrow Hfreq).
      destruct (submitAll tza (request user name url) rest db)
        as [db2 rs] eqn:Hrun.
      cbn [fst snd] in *. rewrite Hna.
      destruct IH as (Hall & Hnn & f' & Hf' & Hfr & Hst & _).
      split; [constructor; auto |].
      split.
      { intros Hpos. apply Forall_cons in Hpos as [Hpos _]. cbn in Hpos.
        unfold onCooldown in Hcd. rewrite Hna in Hcd.
        destruct (Z.ltb_spec now 0); [lia |].
        rewrite andb_false_r in Hcd. discriminate. }
      exists f'. repeat split; auto.
      intros Hpos _. apply Forall_cons in Hpos as [Hpos _]. cbn in Hpos.
      unfold onCooldown in Hcd. rewrite Hna in Hcd.
      destruct (Z.ltb_spec now 0); [lia |].
      rewrite andb_false_r in Hcd. discriminate.
    + (* accepted: the row now has streak 1 and the same frequency *)
      set (f1 := recordSubmission tza f now today).
      assert (Hs1 : streak f1 = 1).
      { unfold f1, recordSubmission. cbn [streak].
        rewrite (isConsecutive_unrecognised tza _ _ today Hfreq).
        reflexivity. }
      assert (Hrow1 : <[(user, name) := f1]> db !! (user, name) = Some f1)
        by apply lookup_insert_eq.
      specialize (IH (<[(user, name) := f1]> db) f1 Hrow1 Hfreq).
      destruct (submitAll tza (request user name url) rest
                  (<[(user, name) := f1]> db)) as [db2 rs] eqn:Hrun.
      cbn [fst snd] in *.
      rewrite Hs1, Hna, (cooldown_unrecognised _ now 0 Hfreq).
      destruct IH as (Hall & Hnn & f' & Hf' & Hfr & Hst & _).
      split; [constructor; auto |].
      split.
      { intros Hpos. apply Forall_cons in Hpos as [_ Hpos].
        cbn [map]. rewrite (Hnn Hpos). reflexivity. }
      exists f'. repeat split; auto.
      * destruct Hst as [Hst | ->]; auto.
      * intros _ _. destruct Hst as [Hst | ->]; auto.
Qed.

(** ** The reminder job *)

Lemma olderThan_spec (cutoff : Z) (col : option Z) :
  olderThan cutoff col = true
  <-> col = None \/ exists v, col = Some v /\ v < cutoff.
Proof.
  destruct col as [v |]; cbn.
  - rewrite Z.ltb_lt. split.
    + intros H. right. eauto.
    + intros [H | (w & Hw & Hlt)]; congruence.
  - split; auto.
Qed.

Lemma elem_of_staleObjectives (cutoff : Z) (db : Table) (k : Key)
    (f : Fields) :
  (k, f) ∈ staleObjectives cutoff db
  <-> db !! k = Some f /\ isStale cutoff f = true.
Proof.
  unfold staleObjectives.
  rewrite elem_of_map_to_list, map_lookup_filter_Some. reflexivity.
Qed.

Lemma selected_key (cutoff : Z) (db : Table) (k : Key) :
  k ∈ (staleObjectives cutoff db).*1
  <-> exists f, db !! k = Some f /\ isStale cutoff f = true.
Proof.
  rewrite list_elem_of_fmap. split.
  - intros ([k' f] & -> & Hin). exists f.
    apply elem_of_staleObjectives, Hin.
  - intros (f & Hf). exists (k, f). split; [reflexivity |].
    apply elem_of_staleObjectives, Hf.
Qed.

Lemma withLastReminded_twice (v : option Z) (o : option Fields) :
  withLastReminded v <$> (withLastReminded v <$> o) = withLastReminded v <$> o.
Proof. destruct o; reflexivity. Qed.

(** The table after the loop, row by row: a row is marked when it was in
    the list and its message was delivered. *)
Lemma remind_loop_lookup (now : Z) (dm : Key -> DmOutcome) (l : list Row)
    (st : Table * list string) (k : Key) :
  (foldl (remindOne now dm) st l).1 !! k =
  if bool_decide (k ∈ l.*1) && delivered (dm k)
  then withLastReminded (Some now) <$> st.1 !! k
  else st.1 !! k.
Proof.
  revert st. induction l as [| obj l IH]; intros st.
  - cbn. rewrite bool_decide_eq_false_2 by apply not_elem_of_nil. reflexivity.
  - cbn [foldl]. rewrite fmap_cons, IH. clear IH.
    destruct obj as [k0 f0]. cbn [fst].
    destruct (decide (k0 = k)) as [-> | Hne].
    + rewrite (bool_decide_eq_true_2 (k ∈ k :: l.*1))
        by apply list_elem_of_here.
      unfold remindOne, markReminded. cbn [fst snd].
      destruct (dm k); cbn [delivered fst snd andb];
        rewrite ?andb_false_r; try reflexivity.
      rewrite lookup_alter_eq, withLastReminded_twice.
      destruct (bool_decide (k ∈ l.*1)); reflexivity.
    + assert (Hsame : (remindOne now dm st (k0, f0)).1 !! k = st.1 !! k).
      { unfold remindOne, markReminded. cbn [fst snd].
        destruct (dm k0); cbn [fst]; try reflexivity.
        apply lookup_alter_ne, Hne. }
      rewrite Hsame.
      destruct (decide (k ∈ l.*1)) as [Hin | Hout].
      * rewrite !bool_decide_eq_true_2; [reflexivity | | assumption].
        apply list_elem_of_further, Hin.
      * rewrite !bool_decide_eq_false_2; [reflexivity | | assumption].
        intros Hin. apply elem_of_cons in Hin as [-> | Hin]; contradiction.
Qed.

(** The user ids logged by the loop: one for each row whose message threw. *)
Lemma remind_loop_log (now : Z) (dm : Key -> DmOutcome) (l : list Row)
    (st : Table * list string) (obj : Row) :
  obj ∈ l -> dm obj.1 = Threw ->
  obj.1.1 ∈ (foldl (remindOne now dm) st l).2.
Proof.
  intros Hin Hthrew.
  assert (Hkeep : forall l st u,
             u ∈ st.2 -> u ∈ (foldl (remindOne now dm) st l).2).
  { clear. induction l as [| o l IH]; intros st u Hu; [exact Hu |].
    cbn [foldl]. apply IH. unfold remindOne.
    destruct (dm o.1); cbn [snd]; [exact Hu | exact Hu |].
    apply elem_of_app. left. exact Hu. }
  revert st. induction l as [| o l IH]; intros st.
  - apply elem_of_nil in Hin. contradiction.
  - cbn [foldl]. apply elem_of_cons in Hin as [<- | Hin].
    + apply Hkeep. unfold remindOne. rewrite Hthrew. cbn [snd].
      apply elem_of_app. right. apply list_elem_of_here.
    + apply IH, Hin.
Qed.

Lemma sweep_lookup (now : Z) (dm : Key -> DmOutcome) (db : Table) (k : Key) :
  (sweep now dm db).1 !! k =
  (fun f => if isStale (now - hours 24) f && delivered (dm k)
            then withLastReminded (Some now) f else f) <$> db !! k.
Proof.
  unfold sweep. rewrite remind_loop_lookup. cbn [fst].
  change (now - 24 * 60 * 60 * 1000) with (now - hours 24).
  destruct (db !! k) as [f |] eqn:Hk; cbn.
  - destruct (isStale (now - hours 24) f) eqn:Hst.
    + rewrite bool_decide_eq_true_2
        by (apply selected_key; exists f; split; assumption).
      destruct (delivered (dm k)); reflexivity.
    + rewrite bool_decide_eq_false_2; [reflexivity |].
      intros (f' & Hf' & Hst') % selected_key. congruence.
  - destruct (bool_decide _ && _); reflexivity.
Qed.

(** C8.  The sweep at [now] selects exactly the rows whose [lastSubmitted]
    is NULL or older than [now - 24h] and whose [lastReminded] is NULL or
    older than [now - 24h]; a selected row whose message was delivered has
    [lastReminded = now] afterwards, and no sweep run less than 24h later
    selects it; the rows that were not selected are untouched. *)
Theorem sweep_selects_stale_and_marks_reminded (now : Z)
    (dm : Key -> DmOutcome) (db : Table) :
  (forall k f,
     (k, f) ∈ staleObjectives (now - hours 24) db
     <-> db !! k = Some f
         /\ (lastSubmitted f = None
             \/ exists v, lastSubmitted f = Some v /\ v < now - hours 24)
         /\ (lastReminded f = None
             \/ exists v, lastReminded f = Some v /\ v < now - hours 24))
  /\ (forall k f,
        (k, f) ∈ staleObjectives (now - hours 24) db ->
        dm k = Delivered ->
        (sweep now dm db).1 !! k = Some (withLastReminded (Some now) f)
        /\ forall now2 f2,
             now2 < now + hours 24 ->
             (k, f2) ∉ staleObjectives (now2 - hours 24) (sweep now dm db).1)
  /\ (forall k,
        k ∉ (staleObjectives (now - hours 24) db).*1 ->
        (sweep now dm db).1 !! k = db !! k).
Proof.
  split; [| split].
  - intros k f. rewrite elem_of_staleObjectives. unfold isStale.
    rewrite andb_true_iff, !olderThan_spec. reflexivity.
  - intros k f Hsel Hdm.
    apply elem_of_staleObjectives in Hsel as [Hk Hst].
    assert (Hafter : (sweep now dm db).1 !! k
                     = Some (withLastReminded (Some now) f)).
    { rewrite sweep_lookup, Hk, Hdm. cbn. rewrite Hst. reflexivity. }
    split; [exact Hafter |].
    intros now2 f2 Hsoon Hsel2.
    apply elem_of_staleObjectives in Hsel2 as [Hk2 Hst2].
    rewrite Hafter in Hk2. injection Hk2 as <-.
    unfold isStale, withLastReminded in Hst2. cbn in Hst2.
    apply andb_true_iff in Hst2 as [_ Hrem].
    apply Z.ltb_lt in Hrem. unfold hours in *. lia.
  - intros k Hout. rewrite sweep_lookup.
    destruct (db !! k) as [f |] eqn:Hk; [| reflexivity]. cbn.
    destruct (isStale (now - hours 24) f) eqn:Hst; [| reflexivity].
    exfalso. apply Hout, selected_key. eauto.
Qed.

(** C9.  When the message for one selected row throws, that row is left as
    it was (so every later sweep selects it again, nothing else having
    changed it), its user id is logged, and every other selected row
    whose message is delivered is still marked. *)
Theorem sweep_isolates_dispatch_failure (now : Z) (dm : Key -> DmOutcome)
    (db : Table) (k : Key) (f : Fields) :
  (k, f) ∈ staleObjectives (now - hours 24) db ->
  dm k = Threw ->
  (sweep now dm db).1 !! k = Some f
  /\ (forall now2, now <= now2 ->
        (k, f) ∈ staleObjectives (now2 - hours 24) (sweep now dm db).1)
  /\ k.1 ∈ (sweep now dm db).2
  /\ (forall k' f',
        (k', f') ∈ staleObjectives (now - hours 24) db ->
        dm k' = Delivered ->
        (sweep now dm db).1 !! k' = Some (withLastReminded (Some now) f')).
Proof.
  intros Hsel Hthrew.
  pose proof Hsel as Hsel0.
  apply elem_of_staleObjectives in Hsel as [Hk Hst].
  assert (Hafter : (sweep now dm db).1 !! k = Some f).
  { rewrite sweep_lookup, Hk, Hthrew. cbn. rewrite andb_false_r.
    reflexivity. }
  split; [exact Hafter | split; [| split]].
  - intros now2 Hlater. apply elem_of_staleObjectives.
    split; [exact Hafter |].
    unfold isStale in *. apply andb_true_iff in Hst as [Hs Hr].
    apply andb_true_iff.
    split; [destruct (lastSubmitted f) | destruct (lastReminded f)];
      cbn in *; try reflexivity; apply Z.ltb_lt;
      match goal with H : (_ <? _) = true |- _ => apply Z.ltb_lt in H end;
      lia.
  - unfold sweep.
    apply (remind_loop_log now dm _ (db, []) (k, f)); [| exact Hthrew].
    exact Hsel0.
  - intros k' f' Hsel' Hdm'.
    apply elem_of_staleObjectives in Hsel' as [Hk' Hst'].
    rewrite sweep_lookup, Hk', Hdm'. cbn. rewrite Hst'. reflexivity.
Qed.

(** ** The statements at concrete rows *)

(** One millisecond before the 22 hours are over the command is refused
    and nothing is written; at 22 hours it is accepted.  The second
    submission falls on the next calendar day, so the streak grows. *)
Example daily_boundary :
  submit utc (request "u" "run" "img")
         (1700000000000 + hours 22 - 1) (1700000000000 + hours 22 - 1)
         dailyTable
  = (dailyTable, CooldownActive (1700000000000 + hours 22))
  /\ (submit utc (request "u" "run" "img")
             (1700000000000 + hours 22) (1700000000000 + hours 22 + 3)
             dailyTable).2
     = Accepted 3 (1700000000000 + hours 44) "img"
  /\ (submit utc (request "u" "run" "img")
             (1700000000000 + hours 22) (1700000000000 + hours 22 + 3)
             dailyTable).1 !! ("u", "run")
     = Some (mkFields "daily" (Some (1700000000000 + hours 22)) 3
                      (Some 19676) None).
Proof. repeat split; vm_compute; reflexivity. Qed.

(** The argument checks and the lookup of lines 127-166. *)
Example submit_argument_checks :
  (submit utc (mkSubmit "u" None None) 5 5 dailyTable).2 = MissingBoth
  /\ (submit utc (mkSubmit "u" None (Some "")) 5 5 dailyTable).2 = MissingBoth
  /\ (submit utc (mkSubmit "u" None (Some "run")) 5 5 dailyTable).2
     = MissingImage
  /\ (submit utc (mkSubmit "u" (Some "img") (Some "")) 5 5 dailyTable).2
     = MissingObjective
  /\ (submit utc (request "u" "swim" "img") 5 5 dailyTable).2
     = NotFound "swim".
Proof. repeat split; vm_compute; reflexivity. Qed.

(** A submission late on day 19675 followed by one early on day 19676 is
    consecutive although only two hours apart; one on day 19677 is not. *)
Example daily_is_by_calendar_date :
  isoDay 1700000000000 = 19675
  /\ isoDay (1700000000000 + hours 2) = 19676
  /\ isConsecutive utc "daily" (Some 19675) (1700000000000 + hours 2) = true
  /\ isConsecutive utc "daily" (Some 19675) (1700000000000 + hours 26) = false
  /\ isConsecutive utc "daily" (Some 19675) (1700000000000 + hours 1) = false.
Proof. repeat split; vm_compute; reflexivity. Qed.

Example weekly_ten_days :
  isConsecutive utc "weekly" (Some 0) (parseDay 10 + hours 9) = true
  /\ isConsecutive utc "weekly" (Some 0) (parseDay 6 + hours 23) = false
  /\ isConsecutive utc "weekly" (Some 0) (parseDay 14) = false.
Proof. repeat split; vm_compute; reflexivity. Qed.

(** A row 25 hours stale and never reminded is selected and marked; a
    sweep 23 hours later selects nothing. *)
Example sweep_twice :
  let now := 1700000000000 + hours 25 in
  staleObjectives (now - hours 24) dailyTable = [(("u", "run"), dailyRow)]
  /\ (sweep now (fun _ => Delivered) dailyTable).1 !! ("u", "run")
     = Some (withLastReminded (Some now) dailyRow)
  /\ staleObjectives (now + hours 23 - hours 24)
       (sweep now (fun _ => Delivered) dailyTable).1 = [].
Proof. repeat split; vm_compute; reflexivity. Qed.

Lemma submit_cooldown_gate_witness :
  dailyTable !! ("u", "run") = Some dailyRow
  /\ lastSubmitted dailyRow = Some 1700000000000
  /\ nextAllowedOf dailyRow = cooldown (frequency dailyRow) 1700000000000 0
  /\ (1700079200000 < nextAllowedOf dailyRow <->
      exists na, (submit utc (request "u" "run" "img")
                         1700079200000 1700079200000 dailyTable).2
                 = CooldownActive na)
  /\ (1700079200000 < nextAllowedOf dailyRow ->
      submit utc (request "u" "run" "img")
             1700079200000 1700079200000 dailyTable
      = (dailyTable, CooldownActive (nextAllowedOf dailyRow)))
  /\ (1700079200000 = nextAllowedOf dailyRow ->
      exists s na, (submit utc (request "u" "run" "img")
                           1700079200000 1700079200000 dailyTable).2
                   = Accepted s na "img").
Proof.
  split; [reflexivity | split; [reflexivity |]].
  apply (submit_cooldown_gate utc "u" "run" "img" dailyTable dailyRow
           1700000000000 1700079200000 1700079200000);
    [discriminate | reflexivity | reflexivity | discriminate].
Defined.

Lemma cooldown_below_nominal_period_witness :
  lastSubmitted dailyRow = Some 1700000000000
  /\ (frequency dailyRow = "daily" ->
        nextAllowedOf dailyRow = 1700000000000 + hours 22
        /\ nextAllowedOf dailyRow < 1700000000000 + hours 24
        /\ forall now,
             cooldown (frequency dailyRow) now (nextAllowedOf dailyRow)
             = now + hours 22)
  /\ (frequency dailyRow = "weekly" ->
        nextAllowedOf dailyRow = 1700000000000 + hours 162
        /\ nextAllowedOf dailyRow < 1700000000000 + hours 168
        /\ forall now,
             cooldown (frequency dailyRow) now (nextAllowedOf dailyRow)
             = now + hours 162)
  /\ (frequency dailyRow = "monthly" ->
        nextAllowedOf dailyRow = 1700000000000 + hours 714
        /\ nextAllowedOf dailyRow < 1700000000000 + hours 720
        /\ forall now,
             cooldown (frequency dailyRow) now (nextAllowedOf dailyRow)
             = now + hours 714).
Proof.
  split; [reflexivity |].
  apply (cooldown_below_nominal_period dailyRow 1700000000000);
    [reflexivity | discriminate].
Defined.

Lemma accepted_submission_sets_streak_witness :
  (submit utc (request "u" "run" "img") 1700079200000 1700079200003
          dailyTable).2
  = Accepted 3 1700158400000 "img"
  /\ exists f',
       (submit utc (request "u" "run" "img") 1700079200000
               1700079200003 dailyTable).1 !! ("u", "run") = Some f'
       /\ 3 = streak f'
       /\ streak f'
          = (if isConsecutive utc (frequency dailyRow)
                  (lastStreakDay dailyRow) 1700079200003
             then streak dailyRow + 1 else 1)
       /\ (lastStreakDay dailyRow = None -> streak f' = 1)
       /\ lastStreakDay f' = Some (isoDay 1700079200003)
       /\ lastSubmitted f' = Some 1700079200000
       /\ frequency f' = frequency dailyRow
       /\ lastReminded f' = lastReminded dailyRow.
Proof.
  split; [reflexivity |].
  apply (accepted_submission_sets_streak utc "u" "run" "img" dailyTable
           dailyRow 1700079200000 1700079200003 3 1700158400000);
    [discriminate | reflexivity | reflexivity].
Defined.

Lemma unrecognised_frequency_always_eligible_witness :
  yearlyTable !! ("u", "taxes") = Some yearlyRow
  /\ recognised (frequency yearlyRow) = false
  /\ nextAllowedOf yearlyRow = 0
  /\ onCooldown yearlyRow 1700000000001 = false
  /\ (forall na,
        (submit utc (request "u" "taxes" "img") 1700000000001 1700000000001
                yearlyTable).2 <> CooldownActive na)
  /\ exists s,
       (submit utc (request "u" "taxes" "img") 1700000000001 1700000000001
               yearlyTable).2 = Accepted s 0 "img".
Proof.
  split; [reflexivity | split; [reflexivity |]].
  apply (unrecognised_frequency_always_eligible utc "u" "taxes" "img"
           yearlyTable yearlyRow 1700000000001 1700000000001);
    [discriminate | reflexivity | reflexivity | discriminate].
Defined.

Lemma unrecognised_frequency_streak_stays_one_witness :
  (submitAll utc (request "u" "taxes" "img")
     [(1700000000001, 1700000000001); (1700000000002, 1700000000002);
      (1700000000003, 1700000000003)] yearlyTable).2
  = [Accepted 1 0 "img"; Accepted 1 0 "img"; Accepted 1 0 "img"]
  /\ (forall lastDay today,
        isConsecutive utc (frequency yearlyRow) lastDay today = false)
  /\ Forall (fun r => r = Accepted 1 0 "img" \/ r = CooldownActive 0)
       (submitAll utc (request "u" "taxes" "img")
          [(1700000000001, 1700000000001); (1700000000002, 1700000000002);
           (1700000000003, 1700000000003)] yearlyTable).2
  /\ (Forall (fun c : Z * Z => 0 <= c.1)
        [(1700000000001, 1700000000001); (1700000000002, 1700000000002);
         (1700000000003, 1700000000003)] ->
      (submitAll utc (request "u" "taxes" "img")
         [(1700000000001, 1700000000001); (1700000000002, 1700000000002);
          (1700000000003, 1700000000003)] yearlyTable).2
      = map (fun _ => Accepted 1 0 "img")
          [(1700000000001, 1700000000001); (1700000000002, 1700000000002);
           (1700000000003, 1700000000003)])
  /\ exists f',
       (submitAll utc (request "u" "taxes" "img")
          [(1700000000001, 1700000000001); (1700000000002, 1700000000002);
           (1700000000003, 1700000000003)] yearlyTable).1 !! ("u", "taxes")
       = Some f'
       /\ frequency f' = frequency yearlyRow
       /\ (streak f' = 1 \/ f' = yearlyRow)
       /\ (Forall (fun c : Z * Z => 0 <= c.1)
             [(1700000000001, 1700000000001); (1700000000002, 1700000000002);
              (1700000000003, 1700000000003)] ->
           [(1700000000001, 1700000000001); (1700000000002, 1700000000002);
            (1700000000003, 1700000000003)] <> [] ->
           streak f' = 1).
Proof.
  split; [reflexivity |].
  apply (unrecognised_frequency_streak_stays_one utc "u" "taxes" "img"
           [(1700000000001, 1700000000001); (1700000000002, 1700000000002);
            (1700000000003, 1700000000003)] yearlyTable yearlyRow);
    [discriminate | reflexivity | reflexivity].
Defined.

Lemma sweep_isolates_dispatch_failure_witness :
  (("ann", "run"), dailyRow)
    ∈ staleObjectives (1700000000000 + hours 25 - hours 24) staleTable
  /\ annUnreachable ("ann", "run") = Threw
  /\ (sweep (1700000000000 + hours 25) annUnreachable staleTable).1
       !! ("ann", "run") = Some dailyRow
  /\ (forall now2, 1700000000000 + hours 25 <= now2 ->
        (("ann", "run"), dailyRow)
          ∈ staleObjectives (now2 - hours 24)
              (sweep (1700000000000 + hours 25) annUnreachable staleTable).1)
  /\ ("ann", "run").1
       ∈ (sweep (1700000000000 + hours 25) annUnreachable staleTable).2
  /\ (forall k' f',
        (k', f')
          ∈ staleObjectives (1700000000000 + hours 25 - hours 24) staleTable ->
        annUnreachable k' = Delivered ->
        (sweep (1700000000000 + hours 25) annUnreachable staleTable).1 !! k'
        = Some (withLastReminded (Some (1700000000000 + hours 25)) f')).
Proof.
  assert (Hsel : (("ann", "run"), dailyRow)
                   ∈ staleObjectives (1700000000000 + hours 25 - hours 24)
                       staleTable).
  { apply elem_of_staleObjectives. split; reflexivity. }
  split; [exact Hsel | split; [reflexivity |]].
  apply (sweep_isolates_dispatch_failure (1700000000000 + hours 25)
           annUnreachable staleTable ("ann", "run") dailyRow Hsel);
    reflexivity.
Defined.

(** With one user unreachable the other is still reminded, and the failure
    is logged once. *)
Example sweep_with_unreachable_user :
  (sweep (1700000000000 + hours 25) annUnreachable staleTable).1
    !! ("bob", "read")
  = Some (mkFields "weekly" None 0 None (Some (1700000000000 + hours 25)))
  /\ (sweep (1700000000000 + hours 25) annUnreachable staleTable).1
       !! ("ann", "run")
     = Some dailyRow
  /\ (sweep (1700000000000 + hours 25) annUnreachable staleTable).2 = ["ann"].
Proof. repeat split; vm_compute; reflexivity. Qed.

(** ** Further properties of the handler *)

(** X1.  On a host whose local time is UTC, the monthly rule compares the
    month and the year of the two calendar dates, and nothing is
    consecutive after a December [lastStreakDay]. *)
Theorem monthly_rule_on_utc_host (day today : Z) :
  isConsecutive utc "monthly" (Some day) today
  = (Ecma.MonthFromDay (isoDay today) =? Ecma.MonthFromDay day + 1)
    && (Ecma.YearFromDay (isoDay today) =? Ecma.YearFromDay day)
  /\ (Ecma.MonthFromDay day = 11 ->
      isConsecutive utc "monthly" (Some day) today = false).
Proof.
  split.
  - apply monthly_consecutive_on_utc_host.
  - apply monthly_after_december_on_utc_host.
Qed.

(** X2.  An objective that was never submitted is accepted at any time,
    with streak 1. *)
Theorem first_submission_accepted (tza : Z -> Z) (user name url : string)
    (db : Table) (f : Fields) (now today : Z) :
  name <> "" ->
  db !! (user, name) = Some f ->
  lastSubmitted f = None ->
  lastStreakDay f = None ->
  (submit tza (request user name url) now today db).2
  = Accepted 1 (cooldown (frequency f) now 0) url.
Proof.
  intros Hname Hrow Hls Hday.
  rewrite (submit_found tza user name url db f now today Hname Hrow).
  unfold onCooldown, nextAllowedOf, recordSubmission.
  rewrite Hls, Hday. reflexivity.
Qed.

Lemma first_submission_accepted_witness :
  (submit utc (request "bob" "read" "img") 1700000000000 1700000000000
          staleTable).2
  = Accepted 1 (cooldown (frequency (mkFields "weekly" None 0 None None))
                         1700000000000 0) "img".
Proof.
  apply (first_submission_accepted utc "bob" "read" "img" staleTable
           (mkFields "weekly" None 0 None None) 1700000000000 1700000000000);
    [discriminate | reflexivity | reflexivity | reflexivity].
Defined.

(** X3.  The command writes to no row but the one it names. *)
Theorem submit_leaves_other_rows (tza : Z -> Z) (req : SubmitRequest)
    (now today : Z) (db : Table) (k : Key) :
  k <> (reqUser req, default "" (reqObjective req)) ->
  (submit tza req now today db).1 !! k = db !! k.
Proof.
  intros Hk. unfold submit, getObjective, upsertObjective.
  repeat match goal with
         | |- context [if ?b then _ else _] => destruct b
         end; try reflexivity.
  destruct (db !! (reqUser req, default "" (reqObjective req)));
    [| reflexivity].
  destruct (onCooldown _ now); [reflexivity |].
  cbn [fst snd]. apply lookup_insert_ne. congruence.
Qed.

Lemma submit_leaves_other_rows_witness :
  (submit utc (request "ann" "run" "img") 1700079200000 1700079200000
          staleTable).1 !! ("bob", "read")
  = staleTable !! ("bob", "read").
Proof.
  apply (submit_leaves_other_rows utc (request "ann" "run" "img")
           1700079200000 1700079200000 staleTable ("bob", "read")).
  discriminate.
Defined.

(** X4.  The sweep changes no column but [lastReminded], and adds or
    removes no row. *)
Theorem sweep_changes_only_lastReminded (now : Z) (dm : Key -> DmOutcome)
    (db : Table) (k : Key) :
  match db !! k, (sweep now dm db).1 !! k with
  | Some f, Some f' =>
    frequency f' = frequency f /\ lastSubmitted f' = lastSubmitted f
    /\ streak f' = streak f /\ lastStreakDay f' = lastStreakDay f
    /\ (lastReminded f' = lastReminded f \/ lastReminded f' = Some now)
  | None, None => True
  | _, _ => False
  end.
Proof.
  rewrite sweep_lookup.
  destruct (db !! k) as [f |]; cbn; [| exact I].
  destruct (isStale (now - hours 24) f && delivered (dm k)); cbn; auto 10.
Qed.

(** A daily submission accepted on the calendar day of [lastStreakDay]
    itself is not consecutive: 22 hours after a submission made at 00:30
    UTC the command is accepted and the streak falls back to 1. *)
Theorem same_day_daily_submission_resets_streak :
  let row := mkFields "daily" (Some (parseDay 19675 + 1800000)) 5
                      (Some 19675) None in
  let at2230 := parseDay 19675 + 1800000 + hours 22 in
  isoDay at2230 = 19675
  /\ submit utc (request "u" "run" "img") at2230 at2230
            {[ ("u", "run") := row ]}
     = (<[ ("u", "run") :=
            mkFields "daily" (Some at2230) 1 (Some 19675) None ]>
          {[ ("u", "run") := row ]},
        Accepted 1 (at2230 + hours 22) "img").
Proof. split; reflexivity. Qed.

(** ** The create_objective and delete_objective commands *)

Lemma truthyStr_inv (o : option string) :
  truthyStr o = true -> exists s, o = Some s /\ s <> "".
Proof.
  destruct o as [s |]; cbn; [| discriminate].
  destruct (String.eqb_spec s ""); [discriminate |]. eauto.
Qed.

Lemma getObjective_is_Some (user name : string) (db : Table) :
  is_Some (getObjective user name db) <-> is_Some (db !! (user, name)).
Proof.
  unfold getObjective. destruct (db !! (user, name)); split;
    intros [x Hx]; try discriminate; eauto.
Qed.

(** The command with both fields present. *)
Lemma create_objective_valid (user name freq : string) (db : Table) :
  name <> "" -> freq <> "" ->
  create_objective (mkCreate user (Some name) (Some freq)) db =
  match db !! (user, name) with
  | Some _ => (db, AlreadyExists name)
  | None => (<[(user, name) := mkFields freq None 0 None None]> db,
             Created name freq)
  end.
Proof.
  intros Hname Hfreq. unfold create_objective, createObjective.
  cbn [crUser crName crFrequency].
  rewrite (truthyStr_Some name Hname), (truthyStr_Some freq Hfreq).
  cbn [negb orb default from_option id].
  destruct (db !! (user, name)) as [f |] eqn:Hrow.
  - rewrite bool_decide_eq_true_2; [reflexivity |].
    apply getObjective_is_Some. rewrite Hrow. eauto.
  - rewrite bool_decide_eq_false_2; [reflexivity |].
    rewrite getObjective_is_Some, Hrow. intros [x Hx]. discriminate.
Qed.

Lemma delete_objective_valid (user name : string) (db : Table) :
  name <> "" ->
  delete_objective (mkDelete user (Some name)) db =
  match db !! (user, name) with
  | Some _ => (delete (user, name) db, Deleted name)
  | None => (db, DeleteNotFound name)
  end.
Proof.
  intros Hname. unfold delete_objective, deleteObjective.
  cbn [delUser delName].
  rewrite (truthyStr_Some name Hname).
  cbn [negb default from_option id].
  destruct (db !! (user, name)) as [f |] eqn:Hrow.
  - rewrite bool_decide_eq_true_2; [reflexivity |].
    apply getObjective_is_Some. rewrite Hrow. eauto.
  - rewrite bool_decide_eq_false_2; [reflexivity |].
    rewrite getObjective_is_Some, Hrow. intros [x Hx]. discriminate.
Qed.


(** X7.  After a create with both fields present, whatever its reply, a
    further create of the same name is answered AlreadyExists and changes
    nothing, also when it asks for another frequency. *)
Theorem create_objective_twice (user name freq freq2 : string) (db : Table) :
  name <> "" -> freq <> "" -> freq2 <> "" ->
  create_objective (mkCreate user (Some name) (Some freq2))
    (create_objective (mkCreate user (Some name) (Some freq)) db).1
  = ((create_objective (mkCreate user (Some name) (Some freq)) db).1,
     AlreadyExists name).
Proof.
  intros Hname Hfreq Hfreq2.
  rewrite (create_objective_valid user name freq db Hname Hfreq).
  destruct (db !! (user, name)) as [f |] eqn:Hrow; cbn [fst];
    rewrite (create_objective_valid user name freq2 _ Hname Hfreq2).
  - rewrite Hrow. reflexivity.
  - rewrite lookup_insert_eq. reflexivity.
Qed.

(** X8.  Deleting an objective right after it was created gives the table
    back as it was before. *)
Theorem create_then_delete (user name freq : string) (db : Table) :
  name <> "" -> freq <> "" ->
  db !! (user, name) = None ->
  delete_objective (mkDelete user (Some name))
    (create_objective (mkCreate user (Some name) (Some freq)) db).1
  = (db, Deleted name).
Proof.
  intros Hname Hfreq Hfree.
  rewrite (create_objective_valid user name freq db Hname Hfreq), Hfree.
  cbn [fst]. rewrite (delete_objective_valid user name _ Hname).
  rewrite lookup_insert_eq, delete_insert_id by exact Hfree. reflexivity.
Qed.


(** X10.  Once delete_objective was called for a name, a submit for it is
    answered NotFound, and creating the name again starts from a fresh
    row: the streak and the time stamps of the old row are gone. *)
Theorem delete_forgets_the_objective (tza : Z -> Z)
    (user name freq url : string) (now today : Z) (db : Table) :
  name <> "" -> freq <> "" ->
  submit tza (request user name url) now today
    (delete_objective (mkDelete user (Some name)) db).1
  = ((delete_objective (mkDelete user (Some name)) db).1, NotFound name)
  /\ (create_objective (mkCreate user (Some name) (Some freq))
        (delete_objective (mkDelete user (Some name)) db).1).1
       !! (user, name)
     = Some (mkFields freq None 0 None None).
Proof.
  intros Hname Hfreq.
  assert (Hgone : (delete_objective (mkDelete user (Some name)) db).1
                    !! (user, name) = None).
  { rewrite (delete_objective_valid user name db Hname).
    destruct (db !! (user, name)) eqn:Hrow; cbn [fst];
      [apply lookup_delete_eq | exact Hrow]. }
  split.
  - unfold submit, request, getObjective.
    cbn [reqAttachment reqObjective reqUser].
    rewrite (truthyStr_Some name Hname).
    rewrite (bool_decide_eq_true_2 (is_Some (Some url))) by eauto.
    cbn [negb andb default from_option id].
    rewrite Hgone. reflexivity.
  - rewrite (create_objective_valid user name freq _ Hname Hfreq), Hgone.
    cbn [fst]. apply lookup_insert_eq.
Qed.

(** ** The list_objectives command *)

Lemma elem_of_getObjectives (userId : string) (db : Table) (k : Key)
    (f : Fields) :
  (k, f) ∈ getObjectives userId db <-> db !! k = Some f /\ k.1 = userId.
Proof.
  unfold getObjectives.
  rewrite elem_of_map_to_list, map_lookup_filter_Some. reflexivity.
Qed.

Lemma getObjectives_nil (userId : string) (db : Table) :
  getObjectives userId db = [] <-> forall name, db !! (userId, name) = None.
Proof.
  split.
  - intros Hnil name. destruct (db !! (userId, name)) as [f |] eqn:Hrow;
      [| reflexivity].
    assert (Hin : ((userId, name), f) ∈ getObjectives userId db)
      by (apply elem_of_getObjectives; auto).
    rewrite Hnil in Hin. apply elem_of_nil in Hin. contradiction.
  - intros Hnone. apply elem_of_nil_inv. intros [[u n] f] Hin.
    apply elem_of_getObjectives in Hin as [Hrow Hu].
    cbn in Hu. subst u. rewrite Hnone in Hrow. discriminate.
Qed.

Lemma getObjectives_names_NoDup (userId : string) (db : Table) :
  NoDup ((fun obj : Row => obj.1.2) <$> getObjectives userId db).
Proof.
  apply NoDup_fmap_2_strong.
  - intros [[u1 n1] f1] [[u2 n2] f2] H1 H2 Hn. cbn in Hn. subst n2.
    apply elem_of_getObjectives in H1 as [Hr1 Hu1].
    apply elem_of_getObjectives in H2 as [Hr2 Hu2].
    cbn in Hu1, Hu2. subst u1 u2. congruence.
  - unfold getObjectives. apply NoDup_map_to_list.
Qed.

Lemma listLine_when (now : Z) (k : Key) (f : Fields) :
  lineWhen (listLine now (k, f))
  = if onCooldown f now then AvailableAt (nextAllowedOf f / 1000)
    else AvailableNow.
Proof.
  unfold listLine, onCooldown, nextAllowedOf. cbn [snd lineWhen].
  destruct (lastSubmitted f) as [ls |]; cbn [truthyNum default from_option id];
    [| reflexivity].
  destruct (negb (ls =? 0)); cbn [negb andb]; [| reflexivity].
  rewrite Z.leb_antisym. destruct (now <? cooldown (frequency f) ls 0);
    reflexivity.
Qed.

(** X11.  The reply is NoObjectives exactly when the user has no row;
    otherwise it has one line for each row of the user, under the row's
    name and frequency, no name twice, and no line for a row of anybody
    else. *)
Theorem list_objectives_lines (userId : string) (now : Z) (db : Table) :
  (list_objectives userId now db = NoObjectives
   <-> forall name, db !! (userId, name) = None)
  /\ forall lines,
       list_objectives userId now db = Objectives lines ->
       (forall line,
          line ∈ lines
          <-> exists name f,
                db !! (userId, name) = Some f
                /\ line = listLine now ((userId, name), f))
       /\ NoDup (lineName <$> lines)
       /\ length lines = length (getObjectives userId db).
Proof.
  unfold list_objectives. cbv zeta.
  pose proof (getObjectives_nil userId db) as Hnil.
  pose proof (getObjectives_names_NoDup userId db) as Hnd.
  assert (Hmem : forall k f, (k, f) ∈ getObjectives userId db
                             <-> db !! k = Some f /\ k.1 = userId)
    by (intros; apply elem_of_getObjectives).
  remember (getObjectives userId db) as objs eqn:Hobjs. clear Hobjs.
  destruct (Nat.eqb_spec (length objs) 0) as [Hlen | Hlen].
  - apply length_zero_iff_nil in Hlen. split.
    + split; [intros _; apply Hnil, Hlen | reflexivity].
    + intros lines H. discriminate.
  - split.
    + split; [discriminate |].
      intros Hnone. apply Hnil in Hnone. subst objs. contradiction.
    + intros lines Heq. injection Heq as <-.
      split; [| split].
      * intros line. change (map (listLine now)) with (fmap (M := list) (listLine now)).
        rewrite list_elem_of_fmap. split.
        -- intros ([[u n] f] & -> & Hin).
           apply Hmem in Hin as [Hrow Hu].
           cbn in Hu. subst u. eauto.
        -- intros (name & f & Hrow & ->). exists ((userId, name), f).
           split; [reflexivity |]. apply Hmem. auto.
      * change (map (listLine now)) with (fmap (M := list) (listLine now)).
        rewrite <- list_fmap_compose. exact Hnd.
      * apply length_map.
Qed.

(** X12.  The list and the submit command agree: a line reads
    [Available now] exactly when a submit for that objective at the same
    instant is accepted; otherwise the line shows the whole second of the
    [nextAllowed] that the submit is refused with. *)
Theorem list_agrees_with_submit (tza : Z -> Z) (user name url : string)
    (db : Table) (f : Fields) (now today : Z) :
  name <> "" ->
  db !! (user, name) = Some f ->
  (lineWhen (listLine now ((user, name), f)) = AvailableNow
   <-> exists s na, (submit tza (request user name url) now today db).2
                    = Accepted s na url)
  /\ (forall secs,
        lineWhen (listLine now ((user, name), f)) = AvailableAt secs
        <-> secs = nextAllowedOf f / 1000
            /\ (submit tza (request user name url) now today db).2
               = CooldownActive (nextAllowedOf f)).
Proof.
  intros Hname Hrow.
  rewrite listLine_when,
    (submit_found tza user name url db f now today Hname Hrow).
  destruct (onCooldown f now); cbn [snd].
  - split.
    + split; [discriminate | intros (s & na & H); discriminate].
    + intros secs. split.
      * intros H. injection H as <-. auto.
      * intros [-> _]. reflexivity.
  - split.
    + split; eauto.
    + intros secs. split; [discriminate | intros [_ H]; discriminate].
Qed.

(** X13.  The second shown by the list is [nextAllowed] rounded down: it
    is less than a second early, and a submit made at the shown second is
    still refused unless [nextAllowed] is a whole second. *)
Theorem list_shows_cooldown_rounded_down (tza : Z -> Z)
    (user name url : string) (db : Table) (f : Fields)
    (now today secs : Z) :
  name <> "" ->
  db !! (user, name) = Some f ->
  lineWhen (listLine now ((user, name), f)) = AvailableAt secs ->
  now < nextAllowedOf f
  /\ 1000 * secs <= nextAllowedOf f < 1000 * secs + 1000
  /\ (nextAllowedOf f mod 1000 <> 0 ->
      submit tza (request user name url) (1000 * secs) today db
      = (db, CooldownActive (nextAllowedOf f))).
Proof.
  intros Hname Hrow Hline. rewrite listLine_when in Hline.
  destruct (onCooldown f now) eqn:Hcd; [| discriminate].
  injection Hline as <-.
  unfold onCooldown in Hcd. apply andb_true_iff in Hcd as [Hset Hlt].
  apply Z.ltb_lt in Hlt.
  pose proof (Z.div_mod (nextAllowedOf f) 1000 ltac:(discriminate)) as Hdm.
  pose proof (Z.mod_pos_bound (nextAllowedOf f) 1000 eq_refl) as Hmod.
  split; [exact Hlt | split; [lia |]].
  intros Hfrac.
  rewrite (submit_found tza user name url db f _ today Hname Hrow).
  unfold onCooldown. rewrite Hset.
  destruct (Z.ltb_spec (1000 * (nextAllowedOf f / 1000)) (nextAllowedOf f));
    [reflexivity | lia].
Qed.

(** ** The route and the rows it writes *)

Lemma submit_table (tza : Z -> Z) (req : SubmitRequest) (now today : Z)
    (db : Table) :
  (submit tza req now today db).1 = db
  \/ exists f,
       db !! (reqUser req, default "" (reqObjective req)) = Some f
       /\ truthyStr (reqObjective req) = true
       /\ (submit tza req now today db).1
          = <[(reqUser req, default "" (reqObjective req))
              := recordSubmission tza f now today]> db.
Proof.
  unfold submit, getObjective, upsertObjective. cbv zeta.
  destruct (bool_decide (is_Some (reqAttachment req)));
    destruct (truthyStr (reqObjective req)) eqn:Hobj; cbn [negb andb];
    auto.
  destruct (db !! (reqUser req, default "" (reqObjective req)))
    as [f |] eqn:Hrow; [| auto].
  destruct (onCooldown f now); [auto |].
  right. exists f. auto.
Qed.

Lemma create_objective_table (req : CreateRequest) (db : Table) :
  (create_objective req db).1 = db
  \/ truthyStr (crName req) = true
     /\ truthyStr (crFrequency req) = true
     /\ (create_objective req db).1
        = <[(crUser req, default "" (crName req))
            := mkFields (default "" (crFrequency req)) None 0 None None]> db.
Proof.
  unfold create_objective, createObjective. cbv zeta.
  destruct (truthyStr (crName req)), (truthyStr (crFrequency req));
    cbn [negb orb]; auto.
  destruct (bool_decide _); [auto |].
  destruct (db !! (crUser req, default "" (crName req))); auto.
Qed.

Lemma delete_objective_table (req : DeleteRequest) (db : Table) :
  (delete_objective req db).1 = db
  \/ (delete_objective req db).1
     = delete (delUser req, default "" (delName req)) db.
Proof.
  unfold delete_objective, deleteObjective. cbv zeta.
  destruct (truthyStr (delName req)); cbn [negb]; auto.
  destruct (bool_decide _); cbn [negb]; auto.
Qed.

(** X14.  A request reads and writes one row at most, the row
    [(userId, name)] it names: every other row, and so every row of
    another user, is the same after it; a ping, a list, an unknown command
    and an unknown interaction type return the table as it was. *)
Theorem interactions_write_only_the_named_row (tza : Z -> Z)
    (body : Interaction) (now today : Z) (db : Table) (k : Key) :
  ((interactions tza body now today db).1 !! k = db !! k
   \/ targetOf body = Some k)
  /\ (targetOf body = None -> (interactions tza body now today db).1 = db).
Proof.
  destruct body as [| [b | req | userId | req | name] |];
    cbn [interactions targetOf fst]; try (split; auto; fail).
  - split; [| discriminate].
    destruct (decide ((bodyUser b, default "" (bodyObjective b)) = k))
      as [-> | Hne]; [auto |]. left.
    destruct (submit_table tza (submitRequestOf b) now today db)
      as [-> | (f & _ & _ & ->)]; [reflexivity |].
    apply lookup_insert_ne, Hne.
  - split; [| discriminate].
    destruct (decide ((crUser req, default "" (crName req)) = k))
      as [-> | Hne]; [auto |]. left.
    destruct (create_objective_table req db) as [-> | (_ & _ & ->)];
      [reflexivity |].
    apply lookup_insert_ne, Hne.
  - split; [| discriminate].
    destruct (decide ((delUser req, default "" (delName req)) = k))
      as [-> | Hne]; [auto |]. left.
    destruct (delete_objective_table req db) as [-> | ->]; [reflexivity |].
    apply lookup_delete_ne, Hne.
Qed.

Lemma rowOk_recordSubmission (tza : Z -> Z) (k : Key) (f : Fields)
    (now today : Z) :
  rowOk k f -> rowOk k (recordSubmission tza f now today).
Proof.
  intros (Hk & Hfr & Hst & _ & _).
  unfold rowOk, recordSubmission. cbn.
  rewrite orZero_id.
  repeat split; auto; try discriminate;
    destruct (isConsecutive tza (frequency f) (lastStreakDay f) today);
    try lia; intros; lia.
Qed.

Lemma tableOk_step (tza : Z -> Z) (db : Table) (e : Event) :
  tableOk db -> tableOk (step tza db e).
Proof.
  intros Hok. destruct e as [body now today | now dm]; cbn [step].
  - destruct body as [| [b | req | userId | req | name] |];
      cbn [interactions fst]; try exact Hok.
    + destruct (submit_table tza (submitRequestOf b) now today db)
        as [-> | (f & Hrow & _ & ->)]; [exact Hok |].
      intros k f' Hk.
      destruct (decide
        ((reqUser (submitRequestOf b),
          default "" (reqObjective (submitRequestOf b))) = k)) as [<- | Hne].
      * rewrite lookup_insert_eq in Hk. injection Hk as <-.
        apply rowOk_recordSubmission, (Hok _ _ Hrow).
      * rewrite lookup_insert_ne in Hk by exact Hne. exact (Hok _ _ Hk).
    + destruct (create_objective_table req db) as [-> | (Hn & Hf & ->)];
        [exact Hok |].
      apply truthyStr_inv in Hn as (n & Hn & Hne).
      apply truthyStr_inv in Hf as (fr & Hf & Hfe).
      rewrite Hn, Hf. cbn [default from_option id].
      intros k f' Hk.
      destruct (decide ((crUser req, n) = k)) as [<- | Hneq].
      * rewrite lookup_insert_eq in Hk. injection Hk as <-.
        unfold rowOk. cbn. repeat split; auto; lia.
      * rewrite lookup_insert_ne in Hk by exact Hneq. exact (Hok _ _ Hk).
    + destruct (delete_objective_table req db) as [-> | ->]; [exact Hok |].
      intros k f' Hk.
      destruct (decide ((delUser req, default "" (delName req)) = k))
        as [<- | Hneq].
      * rewrite lookup_delete_eq in Hk. discriminate.
      * rewrite lookup_delete_ne in Hk by exact Hneq. exact (Hok _ _ Hk).
  - intros k f' Hk. rewrite sweep_lookup in Hk.
    destruct (db !! k) as [f |] eqn:Hrow; [| discriminate].
    cbn in Hk. injection Hk as <-. specialize (Hok _ _ Hrow).
    destruct (isStale (now - hours 24) f && delivered (dm k)); [| exact Hok].
    exact Hok.
Qed.

(** X15.  Starting from the empty table, after any sequence of requests
    and sweeps every row has a name and a frequency that are not empty, a
    streak that is 0 exactly when the objective was never submitted and
    positive otherwise, and a streak day exactly when it was submitted. *)
Theorem reachable_rows_are_well_formed (tza : Z -> Z) (events : list Event)
    (k : Key) (f : Fields) :
  run tza events ∅ !! k = Some f ->
  k.2 <> "" /\ frequency f <> "" /\ 0 <= streak f
  /\ (lastSubmitted f = None <-> streak f = 0)
  /\ (lastSubmitted f = None <-> lastStreakDay f = None).
Proof.
  assert (Hrun : forall db, tableOk db -> tableOk (run tza events db)).
  { unfold run. induction events as [| e es IH]; intros db Hok;
      [exact Hok |].
    cbn [foldl]. apply IH, tableOk_step, Hok. }
  intros Hk. refine (Hrun ∅ _ k f Hk).
  intros k' f' H. rewrite lookup_empty in H. discriminate.
Qed.

Lemma reachable_rows_are_well_formed_witness :
  run utc sampleEvents ∅ !! ("u", "run")
  = Some (mkFields "daily" (Some 1700082801000) 2 (Some 19676)
                   (Some 1700200000000))
  /\ ("u", "run").2 <> ""
  /\ frequency (mkFields "daily" (Some 1700082801000) 2 (Some 19676)
                         (Some 1700200000000)) <> ""
  /\ 0 <= streak (mkFields "daily" (Some 1700082801000) 2 (Some 19676)
                           (Some 1700200000000))
  /\ (lastSubmitted (mkFields "daily" (Some 1700082801000) 2 (Some 19676)
                              (Some 1700200000000)) = None
      <-> streak (mkFields "daily" (Some 1700082801000) 2 (Some 19676)
                           (Some 1700200000000)) = 0)
  /\ (lastSubmitted (mkFields "daily" (Some 1700082801000) 2 (Some 19676)
                              (Some 1700200000000)) = None
      <-> lastStreakDay (mkFields "daily" (Some 1700082801000) 2
                                  (Some 19676) (Some 1700200000000)) = None).
Proof.
  split; [vm_compute; reflexivity |].
  apply (reachable_rows_are_well_formed utc sampleEvents ("u", "run")).
  vm_compute. reflexivity.
Defined.

(** ** More on the reminder job *)

Lemma remind_loop_log_iff (now : Z) (dm : Key -> DmOutcome) (l : list Row)
    (st : Table * list string) (u : string) :
  u ∈ (foldl (remindOne now dm) st l).2
  <-> u ∈ st.2 \/ exists obj, obj ∈ l /\ dm obj.1 = Threw /\ obj.1.1 = u.
Proof.
  revert st. induction l as [| o l IH]; intros st.
  - cbn. split; [auto |].
    intros [H | (obj & Hin & _)]; [exact H |].
    apply elem_of_nil in Hin. contradiction.
  - cbn [foldl]. rewrite IH. clear IH. unfold remindOne.
    destruct (dm o.1) eqn:Hdm; cbn [snd].
    + split.
      * intros [H | (obj & Hin & H)]; [auto |].
        right. exists obj. split; [apply list_elem_of_further, Hin | exact H].
      * intros [H | (obj & Hin & Hthrew & Hu)]; [auto |].
        apply elem_of_cons in Hin as [-> | Hin]; [congruence |].
        right. eauto.
    + split.
      * intros [H | (obj & Hin & H)]; [auto |].
        right. exists obj. split; [apply list_elem_of_further, Hin | exact H].
      * intros [H | (obj & Hin & Hthrew & Hu)]; [auto |].
        apply elem_of_cons in Hin as [-> | Hin]; [congruence |].
        right. eauto.
    + rewrite elem_of_app, list_elem_of_singleton. split.
      * intros [[H | ->] | (obj & Hin & H)]; [auto | |].
        -- right. exists o. split; [apply list_elem_of_here | auto].
        -- right. exists obj.
           split; [apply list_elem_of_further, Hin | exact H].
      * intros [H | (obj & Hin & Hthrew & Hu)]; [auto |].
        apply elem_of_cons in Hin as [-> | Hin]; [auto |].
        right. eauto.
Qed.

(** X16.  The sweep logs a user id exactly when the message for one of
    that user's selected rows threw; a selected row for which no user
    was found is neither marked nor a reason to log. *)
Theorem sweep_logs_exactly_the_failures (now : Z) (dm : Key -> DmOutcome)
    (db : Table) :
  (forall u,
     u ∈ (sweep now dm db).2
     <-> exists name f,
           ((u, name), f) ∈ staleObjectives (now - hours 24) db
           /\ dm (u, name) = Threw)
  /\ (forall k f,
        (k, f) ∈ staleObjectives (now - hours 24) db ->
        dm k = NoUser ->
        (sweep now dm db).1 !! k = Some f).
Proof.
  split.
  - intros u. unfold sweep. rewrite remind_loop_log_iff. cbn [snd].
    change (now - 24 * 60 * 60 * 1000) with (now - hours 24). split.
    + intros [H | ([[u' n] f] & Hin & Hthrew & Hu)].
      * apply elem_of_nil in H. contradiction.
      * cbn in Hu. subst u'. eauto.
    + intros (name & f & Hin & Hthrew). right.
      exists ((u, name), f). auto.
  - intros k f Hsel Hdm. apply elem_of_staleObjectives in Hsel as [Hk _].
    rewrite sweep_lookup, Hk, Hdm. cbn. rewrite andb_false_r. reflexivity.
Qed.

(** X17.  The sweep does not look at the frequency: a weekly or monthly
    objective submitted more than 24 hours ago is selected for a reminder
    although a submit for it is still refused. *)
Theorem sweep_reminds_objectives_on_cooldown (tza : Z -> Z)
    (user name url : string) (db : Table) (f : Fields) (t now today : Z) :
  name <> "" ->
  db !! (user, name) = Some f ->
  frequency f = "weekly" \/ frequency f = "monthly" ->
  lastSubmitted f = Some t ->
  t <> 0 ->
  lastReminded f = None ->
  t + hours 24 < now < t + hours 162 ->
  ((user, name), f) ∈ staleObjectives (now - hours 24) db
  /\ (submit tza (request user name url) now today db).2
     = CooldownActive (nextAllowedOf f).
Proof.
  intros Hname Hrow Hfreq Hls Ht Hrem Hnow.
  split.
  - apply elem_of_staleObjectives. split; [exact Hrow |].
    unfold isStale. rewrite Hls, Hrem. cbn.
    rewrite andb_true_r. apply Z.ltb_lt. lia.
  - rewrite (submit_found tza user name url db f now today Hname Hrow).
    rewrite (onCooldown_set f t now Hls Ht),
      (nextAllowedOf_set f t Hls Ht).
    assert (Hlt : now < cooldown (frequency f) t 0).
    { destruct Hfreq as [-> | ->];
        rewrite ?cooldown_weekly, ?cooldown_monthly; unfold hours in *; lia. }
    apply Z.ltb_lt in Hlt. rewrite Hlt. reflexivity.
Qed.

Lemma sweep_reminds_objectives_on_cooldown_witness :
  (("u", "call"), weeklyRow)
    ∈ staleObjectives (1700000000000 + hours 30 - hours 24) weeklyTable
  /\ (submit utc (request "u" "call" "img") (1700000000000 + hours 30)
             (1700000000000 + hours 30) weeklyTable).2
     = CooldownActive (nextAllowedOf weeklyRow).
Proof.
  apply (sweep_reminds_objectives_on_cooldown utc "u" "call" "img"
           weeklyTable weeklyRow 1700000000000);
    [discriminate | reflexivity | left; reflexivity | reflexivity
    | discriminate | reflexivity | unfold hours; lia].
Defined.

(** ** The attachment *)




(** ** An objective from its creation on *)

(** X20.  A newly created objective is accepted at its first submit with
    streak 1, whatever the time, and the reply announces the policy's
    [nextAllowed]; a second submit before that instant is refused with it
    and changes nothing. *)
Theorem new_objective_first_and_second_submit (tza : Z -> Z)
    (user name freq url : string) (db : Table)
    (now today now2 today2 : Z) :
  name <> "" -> freq <> "" ->
  db !! (user, name) = None ->
  now <> 0 ->
  now2 < cooldown freq now 0 ->
  (submit tza (request user name url) now today
     (create_objective (mkCreate user (Some name) (Some freq)) db).1).2
  = Accepted 1 (cooldown freq now 0) url
  /\ submit tza (request user name url) now2 today2
       (submit tza (request user name url) now today
          (create_objective (mkCreate user (Some name) (Some freq)) db).1).1
     = ((submit tza (request user name url) now today
           (create_objective (mkCreate user (Some name) (Some freq)) db).1).1,
        CooldownActive (cooldown freq now 0)).
Proof.
  intros Hname Hfreq Hfree Hnow Hsoon.
  rewrite (create_objective_valid user name freq db Hname Hfreq), Hfree.
  cbn [fst].
  set (db1 := <[(user, name) := mkFields freq None 0 None None]> db).
  assert (Hrow1 : db1 !! (user, name) = Some (mkFields freq None 0 None None))
    by apply lookup_insert_eq.
  rewrite (submit_found tza user name url db1 _ now today Hname Hrow1).
  cbn [onCooldown lastSubmitted truthyNum andb snd fst].
  split; [reflexivity |].
  set (f1 := recordSubmission tza (mkFields freq None 0 None None) now today).
  assert (Hrow2 : <[(user, name) := f1]> db1 !! (user, name) = Some f1)
    by apply lookup_insert_eq.
  rewrite (submit_found tza user name url _ f1 now2 today2 Hname Hrow2).
  assert (Hna : nextAllowedOf f1 = cooldown freq now 0).
  { apply (nextAllowedOf_set f1 now); [reflexivity | exact Hnow]. }
  rewrite (onCooldown_set f1 now now2 eq_refl Hnow), Hna.
  apply Z.ltb_lt in Hsoon. rewrite Hsoon. reflexivity.
Qed.

Lemma new_objective_first_and_second_submit_witness :
  (submit utc (request "ann" "swim" "img") 1700000000000 1700000000000
     (create_objective (mkCreate "ann" (Some "swim") (Some "daily"))
        staleTable).1).2
  = Accepted 1 (cooldown "daily" 1700000000000 0) "img"
  /\ submit utc (request "ann" "swim" "img") 1700000000001 1700000000001
       (submit utc (request "ann" "swim" "img") 1700000000000 1700000000000
          (create_objective (mkCreate "ann" (Some "swim") (Some "daily"))
             staleTable).1).1
     = ((submit utc (request "ann" "swim" "img") 1700000000000 1700000000000
           (create_objective (mkCreate "ann" (Some "swim") (Some "daily"))
              staleTable).1).1,
        CooldownActive (cooldown "daily" 1700000000000 0)).
Proof.
  apply (new_objective_first_and_second_submit utc "ann" "swim" "daily" "img"
           staleTable 1700000000000 1700000000000 1700000000001
           1700000000001);
    [discriminate | discriminate | reflexivity | discriminate
    | vm_compute; reflexivity].
Defined.

(** X5.  The cooldown of 22 hours lets a daily objective be submitted
    twice on one UTC calendar day; the second submission is accepted but
    is not consecutive, so the streak falls back to 1. *)
Theorem daily_second_submission_same_day (tza : Z -> Z)
    (user name url : string) (db : Table) (f : Fields)
    (t day now today : Z) :
  name <> "" ->
  db !! (user, name) = Some f ->
  frequency f = "daily" ->
  lastSubmitted f = Some t ->
  lastStreakDay f = Some day ->
  t + hours 22 <= now ->
  isoDay today = day ->
  (submit tza (request user name url) now today db).2
  = Accepted 1 (now + hours 22) url.
Proof.
  intros Hname Hrow Hfreq Hls Hday Hnow Htoday.
  rewrite (submit_found tza user name url db f now today Hname Hrow).
  assert (Hcd : onCooldown f now = false).
  { unfold onCooldown, nextAllowedOf. rewrite Hls, Hfreq. cbn [truthyNum].
    destruct (negb (t =? 0)); [| reflexivity]. cbn [andb].
    rewrite cooldown_daily. apply Z.ltb_ge. exact Hnow. }
  rewrite Hcd. cbn [snd]. unfold recordSubmission. cbn [streak].
  rewrite Hfreq, Hday, isConsecutive_daily, Htoday, Z.sub_diag,
    cooldown_daily.
  reflexivity.
Qed.

Lemma daily_second_submission_same_day_witness :
  isoDay (19675 * 86400000 + 1800000 + hours 22) = 19675
  /\ (submit utc (request "u" "run" "img")
             (19675 * 86400000 + 1800000 + hours 22)
             (19675 * 86400000 + 1800000 + hours 22) earlyTable).2
     = Accepted 1 (19675 * 86400000 + 1800000 + hours 22 + hours 22) "img".
Proof.
  split; [reflexivity |].
  apply (daily_second_submission_same_day utc "u" "run" "img" earlyTable
           earlyRow (19675 * 86400000 + 1800000) 19675);
    [discriminate | reflexivity | reflexivity | reflexivity | reflexivity
    | unfold hours; lia | reflexivity].
Defined.

Lemma cooldown_recognised (freq : string) (ls a b : Z) :
  recognised freq = true -> cooldown freq ls a = cooldown freq ls b.
Proof.
  unfold recognised, cooldown. intros Hrec.
  destruct (String.eqb freq "monthly"); [reflexivity |].
  destruct (String.eqb freq "weekly"); [reflexivity |].
  destruct (String.eqb freq "daily"); [reflexivity | discriminate].
Qed.

(** X21.  The [nextAllowed] announced by an accepted submit is the instant
    the list goes by afterwards: the line reads [Available now] from that
    instant on and shows its whole second before. *)
Theorem accepted_reply_matches_list (tza : Z -> Z)
    (user name url : string) (db : Table) (f : Fields)
    (now today s na now2 : Z) :
  name <> "" ->
  db !! (user, name) = Some f ->
  now <> 0 ->
  (submit tza (request user name url) now today db).2 = Accepted s na url ->
  exists f',
    (submit tza (request user name url) now today db).1 !! (user, name)
    = Some f'
    /\ lineName (listLine now2 ((user, name), f')) = name
    /\ lineWhen (listLine now2 ((user, name), f'))
       = if na <=? now2 then AvailableNow else AvailableAt (na / 1000).
Proof.
  intros Hname Hrow Hnow Hacc.
  pose proof (submit_accepted_inv tza user name url db f now today s na url
                Hname Hrow Hacc) as Heq.
  rewrite Heq in Hacc |- *. cbn [fst snd] in *.
  injection Hacc as _ Hna.
  set (f1 := recordSubmission tza f now today) in *.
  exists f1. rewrite lookup_insert_eq.
  split; [reflexivity | split; [reflexivity |]].
  assert (Hna1 : nextAllowedOf f1 = na).
  { rewrite (nextAllowedOf_set f1 now eq_refl Hnow).
    change (frequency f1) with (frequency f). rewrite <- Hna.
    destruct (recognised (frequency f)) eqn:Hrec.
    - apply cooldown_recognised, Hrec.
    - rewrite !(cooldown_unrecognised _ _ _ Hrec).
      symmetry. apply nextAllowedOf_unrecognised, Hrec. }
  rewrite listLine_when, (onCooldown_set f1 now now2 eq_refl Hnow), Hna1.
  rewrite Z.leb_antisym. destruct (now2 <? na); reflexivity.
Qed.

Lemma accepted_reply_matches_list_witness :
  (submit utc (request "u" "run" "img") 1700079200000 1700079200000
          dailyTable).2
  = Accepted 3 1700158400000 "img"
  /\ exists f',
       (submit utc (request "u" "run" "img") 1700079200000 1700079200000
               dailyTable).1 !! ("u", "run") = Some f'
       /\ lineName (listLine 1700079200001 (("u", "run"), f')) = "run"
       /\ lineWhen (listLine 1700079200001 (("u", "run"), f'))
          = if 1700158400000 <=? 1700079200001 then AvailableNow
            else AvailableAt (1700158400000 / 1000).
Proof.
  split; [reflexivity |].
  apply (accepted_reply_matches_list utc "u" "run" "img" dailyTable dailyRow
           1700079200000 1700079200000 3 1700158400000 1700079200001);
    [discriminate | reflexivity | discriminate | reflexivity].
Defined.

(** X22.  Two accepted submissions of an objective with one of the three
    known frequencies are at least 22 hours apart. *)
Theorem accepted_submissions_are_spaced (tza : Z -> Z)
    (user name url : string) (db : Table) (f : Fields)
    (t now today s na : Z) :
  name <> "" ->
  db !! (user, name) = Some f ->
  recognised (frequency f) = true ->
  lastSubmitted f = Some t ->
  t <> 0 ->
  (submit tza (request user name url) now today db).2 = Accepted s na url ->
  t + hours 22 <= now.
Proof.
  intros Hname Hrow Hrec Hls Ht Hacc.
  rewrite (submit_found tza user name url db f now today Hname Hrow) in Hacc.
  rewrite (onCooldown_set f t now Hls Ht),
    (nextAllowedOf_set f t Hls Ht) in Hacc.
  destruct (Z.ltb_spec now (cooldown (frequency f) t 0)) as [Hlt | Hge];
    [discriminate |].
  unfold recognised in Hrec. unfold cooldown, hours in *.
  destruct (String.eqb (frequency f) "monthly");
    destruct (String.eqb (frequency f) "weekly");
    destruct (String.eqb (frequency f) "daily");
    try discriminate; lia.
Qed.

Lemma accepted_submissions_are_spaced_witness :
  (submit utc (request "u" "run" "img") 1700079200000 1700079200000
          dailyTable).2
  = Accepted 3 1700158400000 "img"
  /\ 1700000000000 + hours 22 <= 1700079200000.
Proof.
  split; [reflexivity |].
  apply (accepted_submissions_are_spaced utc "u" "run" "img" dailyTable
           dailyRow 1700000000000 1700079200000 1700079200000 3
           1700158400000);
    [discriminate | reflexivity | reflexivity | reflexivity | discriminate
    | reflexivity].
Defined.

(** ** The added statements at concrete rows *)

Lemma create_objective_twice_witness :
  create_objective (mkCreate "ann" (Some "swim") (Some "weekly"))
    (create_objective (mkCreate "ann" (Some "swim") (Some "daily"))
       staleTable).1
  = ((create_objective (mkCreate "ann" (Some "swim") (Some "daily"))
        staleTable).1,
     AlreadyExists "swim").
Proof.
  apply (create_objective_twice "ann" "swim" "daily" "weekly" staleTable);
    discriminate.
Defined.

Lemma create_then_delete_witness :
  staleTable !! ("ann", "swim") = None
  /\ delete_objective (mkDelete "ann" (Some "swim"))
       (create_objective (mkCreate "ann" (Some "swim") (Some "daily"))
          staleTable).1
     = (staleTable, Deleted "swim").
Proof.
  split; [reflexivity |].
  apply (create_then_delete "ann" "swim" "daily" staleTable);
    [discriminate | discriminate | reflexivity].
Defined.

Lemma delete_forgets_the_objective_witness :
  submit utc (request "u" "run" "img") 1700079200000 1700079200000
    (delete_objective (mkDelete "u" (Some "run")) dailyTable).1
  = ((delete_objective (mkDelete "u" (Some "run")) dailyTable).1,
     NotFound "run")
  /\ (create_objective (mkCreate "u" (Some "run") (Some "weekly"))
        (delete_objective (mkDelete "u" (Some "run")) dailyTable).1).1
       !! ("u", "run")
     = Some (mkFields "weekly" None 0 None None).
Proof.
  apply (delete_forgets_the_objective utc "u" "run" "weekly" "img"
           1700079200000 1700079200000 dailyTable);
    discriminate.
Defined.

Lemma list_agrees_with_submit_witness :
  dailyTable !! ("u", "run") = Some dailyRow
  /\ (lineWhen (listLine 1700079199999 (("u", "run"), dailyRow))
      = AvailableNow
      <-> exists s na,
            (submit utc (request "u" "run" "img") 1700079199999
                    1700079199999 dailyTable).2 = Accepted s na "img")
  /\ (forall secs,
        lineWhen (listLine 1700079199999 (("u", "run"), dailyRow))
        = AvailableAt secs
        <-> secs = nextAllowedOf dailyRow / 1000
            /\ (submit utc (request "u" "run" "img") 1700079199999
                       1700079199999 dailyTable).2
               = CooldownActive (nextAllowedOf dailyRow)).
Proof.
  split; [reflexivity |].
  apply (list_agrees_with_submit utc "u" "run" "img" dailyTable dailyRow
           1700079199999 1700079199999);
    [discriminate | reflexivity].
Defined.

Lemma list_shows_cooldown_rounded_down_witness :
  lineWhen (listLine 1700000000200 (("u", "walk"), msRow))
  = AvailableAt 1700079200
  /\ nextAllowedOf msRow mod 1000 <> 0
  /\ 1700000000200 < nextAllowedOf msRow
  /\ 1000 * 1700079200 <= nextAllowedOf msRow < 1000 * 1700079200 + 1000
  /\ (nextAllowedOf msRow mod 1000 <> 0 ->
      submit utc (request "u" "walk" "img") (1000 * 1700079200)
             (1000 * 1700079200) msTable
      = (msTable, CooldownActive (nextAllowedOf msRow))).
Proof.
  split; [reflexivity | split; [discriminate |]].
  apply (list_shows_cooldown_rounded_down utc "u" "walk" "img" msTable msRow
           1700000000200 (1000 * 1700079200) 1700079200);
    [discriminate | reflexivity | reflexivity].
Defined.

(** The list of a user with two objectives, one available and one not. *)
Example list_two_objectives :
  list_objectives "nobody" 1700000000200 staleTable = NoObjectives
  /\ list_objectives "ann" 1700000000200 staleTable
     = Objectives [mkLine "run" "daily" (AvailableAt 1700079200) None]
  /\ list_objectives "bob" 1700000000200 staleTable
     = Objectives [mkLine "read" "weekly" AvailableNow None].
Proof. repeat split; vm_compute; reflexivity. Qed.
